(** * Amberarctic storefront backend: a shallow embedding of [main.py] and
    [schemas.py], with the properties of its request handlers.

    Python integers are unbounded, so they are [Z]; a [float] is a finite
    number, kept as a rational ([Q]), or one of the two infinities or
    NaN, which the JSON parser of the standard library also reads; a
    [dict] is an association list, since Python dicts keep insertion
    order and the handlers return them as JSON objects;
    the collections of the document store are a finite map from the
    collection name to the documents in insertion order. *)

From Stdlib Require Import ZArith QArith Lia HexadecimalString.
From stdpp Require Import gmap strings list.

Local Open Scope Z_scope.
Local Open Scope string_scope.
Local Set Warnings "-register-all".

(** ** Python values *)

(** A [float]: a finite number, [inf], [-inf] or [nan]. *)
Inductive pyfloat : Type :=
| Finite (q : Q)
| PosInf
| NegInf
| NaN.

(** [f >= bound], as the [ge=] constraint of a field tests it: no
    comparison with NaN holds. *)
Definition float_ge (f : pyfloat) (bound : Q) : bool :=
  match f with
  | Finite q => Qle_bool bound q
  | PosInf => true
  | NegInf => false
  | NaN => false
  end.

(** [f < 0]. *)
Definition float_negative (f : pyfloat) : Prop :=
  match f with
  | Finite q => (q < 0)%Q
  | NegInf => True
  | PosInf => False
  | NaN => False
  end.

(** [f == g] on floats: NaN equals nothing. *)
Definition float_eqb (f g : pyfloat) : bool :=
  match f, g with
  | Finite x, Finite y => Qeq_bool x y
  | PosInf, PosInf => true
  | NegInf, NegInf => true
  | _, _ => false
  end.

(** The values a document or a JSON response holds. *)
Inductive value : Type :=
| VNone
| VBool (b : bool)
| VInt (z : Z)
| VFloat (f : pyfloat)
| VStr (s : string)
| VList (l : list value)
| VDict (d : list (string * value))
| VObjectId (oid : N).

(** A Python [dict] with string keys. *)
Abbreviation dict := (list (string * value)).

(** [d.get(k)]: the value bound to the first (and, in a dict, only)
    occurrence of [k]. *)
Fixpoint dict_get (k : string) (d : dict) : option value :=
  match d with
  | [] => None
  | (k', v) :: d' => if String.eqb k' k then Some v else dict_get k d'
  end.

(** [d[k] = v]: an existing key keeps its position, a new key goes last. *)
Fixpoint dict_set (k : string) (v : value) (d : dict) : dict :=
  match d with
  | [] => [(k, v)]
  | (k', v') :: d' =>
      if String.eqb k' k then (k, v) :: d' else (k', v') :: dict_set k v d'
  end.

(** [x in xs] for a list of strings: Python compares with [==], which on
    [str] is exact, case-sensitive equality. *)
Definition str_in (x : string) (xs : list string) : bool :=
  existsb (String.eqb x) xs.

(** ** schemas.py: SizeProfile *)

Record SizeProfile : Type := mkSizeProfile {
  height_cm : Z;
  weight_kg : Z;
  build : string;
  gender : option string
}.

(** ** main.py: the size recommendation *)

Module Size.

(** The local variable [score] of [recommend_size], after the build
    adjustment. *)
Definition score (profile : SizeProfile) : Z :=
  let h := height_cm profile in
  let w := weight_kg profile in
  let build := build profile in
  let score := (h - 160) + (w - 60) in
  if str_in build ["athletic"; "broad"] then score + 10 else score.

(** The [if]/[elif] chain that picks the label. *)
Definition label (score : Z) : string :=
  if (score <? 0)%Z then "XS"
  else if (score <? 10)%Z then "S"
  else if (score <? 20)%Z then "M"
  else if (score <? 30)%Z then "L"
  else if (score <? 40)%Z then "XL"
  else "XXL".

(** [recommend_size(profile)]: returns [{"recommended_size": size}]. *)
Definition recommend_size (profile : SizeProfile) : dict :=
  let size := label (score profile) in
  [("recommended_size", VStr size)].

(** The score as the specification words it: height over 160 plus weight
    over 60, plus 10 for an athletic or broad build. *)
Definition spec_score (h w : Z) (b : string) : Z :=
  (h - 160) + (w - 60)
  + (if decide (b = "athletic" \/ b = "broad") then 10 else 0).

(** The response carrying a given label. *)
Definition size_response (size : string) : dict :=
  [("recommended_size", VStr size)].

End Size.

(** ** schemas.py: validation *)

(** A validation failure lists the offending fields; the request is
    accepted when the list is empty. *)
Definition check (ok : bool) (loc : string) : list string :=
  if ok then [] else [loc].

Module Schemas.

(** [height_cm: int = Field(..., ge=120, le=230)],
    [weight_kg: int = Field(..., ge=35, le=180)]; [build] and [gender]
    carry no constraint beyond their type. *)
Definition SizeProfile_errors (p : SizeProfile) : list string :=
  check ((120 <=? height_cm p)%Z && (height_cm p <=? 230)%Z) "height_cm"
  ++ check ((35 <=? weight_kg p)%Z && (weight_kg p <=? 180)%Z) "weight_kg".

Record OrderItem : Type := mkOrderItem {
  item_product_slug : string;
  item_size : string;
  item_color : string;
  quantity : Z
}.

Record Order : Type := mkOrder {
  items : list OrderItem;
  email : string;
  shipping_name : string;
  shipping_address : string;
  city : string;
  country : string;
  postal_code : string;
  total : pyfloat
}.

(** [quantity: int = Field(..., ge=1)]. *)
Definition OrderItem_errors (it : OrderItem) : list string :=
  check (1 <=? quantity it)%Z "quantity".

(** [total: float = Field(..., ge=0)]; every item is validated as an
    [OrderItem]. *)
Definition Order_errors (o : Order) : list string :=
  flat_map OrderItem_errors (items o)
  ++ check (float_ge (total o) 0) "total".

(** The inputs that the validation error of an order echoes: for each
    field at fault, the value that was given for it. *)
Definition Order_error_inputs (o : Order) : list value :=
  flat_map (fun it => if (1 <=? quantity it)%Z then [] else [VInt (quantity it)])
    (items o)
  ++ (if float_ge (total o) 0 then [] else [VFloat (total o)]).

Record Product : Type := mkProduct {
  title : string;
  slug : string;
  product_gender : string;
  activity : list string;
  description : option string;
  price : pyfloat;
  images : list string;
  colors : list string;
  sizes : list string;
  temperature_min_c : Z;
  battery_life_hours : Z;
  warmth_level : Z;
  features : list string
}.

(** The keyword arguments of [Product(...)]: a field declared with a
    default or a default factory may be left out. *)
Record ProductArgs : Type := mkProductArgs {
  arg_title : string;
  arg_slug : string;
  arg_gender : string;
  arg_activity : option (list string);
  arg_description : option string;
  arg_price : pyfloat;
  arg_images : option (list string);
  arg_colors : option (list string);
  arg_sizes : option (list string);
  arg_temperature_min_c : Z;
  arg_battery_life_hours : Z;
  arg_warmth_level : Z;
  arg_features : option (list string)
}.

(** [price: float = Field(..., ge=0)],
    [warmth_level: int = Field(..., ge=1, le=10)]. *)
Definition Product_errors (a : ProductArgs) : list string :=
  check (float_ge (arg_price a) 0) "price"
  ++ check ((1 <=? arg_warmth_level a)%Z && (arg_warmth_level a <=? 10)%Z)
       "warmth_level".

(** [Product(...)]: the validated model, with each omitted field
    filled from its [default_factory]. *)
Definition Product_init (a : ProductArgs) : Product + list string :=
  match Product_errors a with
  | [] =>
      inl {| title := arg_title a;
             slug := arg_slug a;
             product_gender := arg_gender a;
             activity := default [] (arg_activity a);
             description := arg_description a;
             price := arg_price a;
             images := default [] (arg_images a);
             colors := default [] (arg_colors a);
             sizes := default ["XS"; "S"; "M"; "L"; "XL"; "XXL"] (arg_sizes a);
             temperature_min_c := arg_temperature_min_c a;
             battery_life_hours := arg_battery_life_hours a;
             warmth_level := arg_warmth_level a;
             features := default [] (arg_features a) |}
  | errs => inr errs
  end.

(** [model_dump()] of an order item and of an order. *)
Definition OrderItem_dump (it : OrderItem) : dict :=
  [("product_slug", VStr (item_product_slug it));
   ("size", VStr (item_size it));
   ("color", VStr (item_color it));
   ("quantity", VInt (quantity it))].

Definition Order_dump (o : Order) : dict :=
  [("items", VList (map (fun it => VDict (OrderItem_dump it)) (items o)));
   ("email", VStr (email o));
   ("shipping_name", VStr (shipping_name o));
   ("shipping_address", VStr (shipping_address o));
   ("city", VStr (city o));
   ("country", VStr (country o));
   ("postal_code", VStr (postal_code o));
   ("total", VFloat (total o))].

End Schemas.

(** ** Exceptions, the database handle and the handler monad *)

Inductive exn : Type :=
| HTTPException (status_code : Z) (detail : string)
| KeyError (key : string)
| TypeError (msg : string)
| StorageError
| NotImplementedError
| ValueError.

Inductive outcome (A : Type) : Type :=
| Return (a : A)
| Raise (e : exn).
Arguments Return {A} a.
Arguments Raise {A} e.

(** The contents of the document database: the collections by name, each
    in insertion order, and the next identifier the store hands out. *)
Record store : Type := mkStore {
  next_oid : N;
  collections : gmap string (list dict)
}.

(** The module-level handle [db]: [None] when no connection was made. *)
Abbreviation database := (option store).

(** A handler body: it reads and writes the database and either returns
    or raises; what it wrote before raising stays written. *)
Definition M (A : Type) : Type := database -> outcome A * database.

Definition ret {A} (a : A) : M A := fun db => (Return a, db).
Definition raise {A} (e : exn) : M A := fun db => (Raise e, db).
Definition bind {A B} (m : M A) (k : A -> M B) : M B :=
  fun db =>
    match m db with
    | (Return a, db') => k a db'
    | (Raise e, db') => (Raise e, db')
    end.

Notation "x <~ c1 ;; c2" := (bind c1 (fun x => c2))
  (at level 100, c1 at next level, right associativity).

(** [try: body  except Exception as e: handler(e)]. *)
Definition try_except {A} (body : M A) (handler : exn -> M A) : M A :=
  fun db =>
    match body db with
    | (Return a, db') => (Return a, db')
    | (Raise e, db') => handler e db'
    end.

(** [for x in xs: body(x)]. *)
Fixpoint for_each {A} (xs : list A) (body : A -> M unit) : M unit :=
  match xs with
  | [] => ret tt
  | x :: xs' => _ <~ body x ;; for_each xs' body
  end.

(** [len(xs)] as a Python integer. *)
Definition len {A} (xs : list A) : Z := Z.of_nat (length xs).

(** ** The document store *)

Module Store.

(** Equality of stored values, kind by kind; two floats are equal when
    they are the same number. *)
Fixpoint value_eqb (a b : value) : bool :=
  match a, b with
  | VNone, VNone => true
  | VBool x, VBool y => Bool.eqb x y
  | VInt x, VInt y => (x =? y)%Z
  | VFloat x, VFloat y => float_eqb x y
  | VStr x, VStr y => String.eqb x y
  | VList xs, VList ys =>
      (fix go (xs ys : list value) : bool :=
         match xs, ys with
         | [], [] => true
         | x :: xs', y :: ys' => value_eqb x y && go xs' ys'
         | _, _ => false
         end) xs ys
  | VDict xs, VDict ys =>
      (fix go (xs ys : dict) : bool :=
         match xs, ys with
         | [], [] => true
         | (k, x) :: xs', (k', y) :: ys' =>
             String.eqb k k' && value_eqb x y && go xs' ys'
         | _, _ => false
         end) xs ys
  | VObjectId x, VObjectId y => (x =? y)%N
  | _, _ => false
  end.

(** The number a value holds, if it holds a finite one. *)
Definition number (v : value) : option Q :=
  match v with
  | VInt z => Some (inject_Z z)
  | VFloat (Finite q) => Some q
  | _ => None
  end.

(** Modelled from the spec: the filter semantics of the store's [find],
    which is not part of the sources.  A filter binds a field to a plain
    value (exact match), to [{"$in": [...]}] (the field is an array and
    one of its elements is among the listed values) or to [{"$lte": n}]
    (the field is a number less than or equal to [n]). *)
Definition matches_cond (field : option value) (cond : value) : bool :=
  let exact :=
    match field with
    | Some v => value_eqb v cond
    | None => false
    end in
  match cond with
  | VDict [(op, arg)] =>
      if String.eqb op "$in" then
        match arg, field with
        | VList vs, Some (VList xs) =>
            existsb (fun x => existsb (value_eqb x) vs) xs
        | _, _ => false
        end
      else if String.eqb op "$lte" then
        match number arg, field with
        | Some bound, Some v =>
            match number v with
            | Some q => Qle_bool q bound
            | None => false
            end
        | _, _ => false
        end
      else exact
  | _ => exact
  end.

Definition matches (query doc : dict) : bool :=
  forallb (fun kc => matches_cond (dict_get (fst kc) doc) (snd kc)) query.

(** Modelled from the spec: [find(collection, filter)], the documents of
    the collection that match the filter, in insertion order. *)
Definition find (query : dict) (docs : list dict) : list dict :=
  List.filter (matches query) docs.

(** Modelled from the spec: [findOne(collection, filter)], a single
    matching document or not-found. *)
Definition find_one (query : dict) (docs : list dict) : option dict :=
  List.find (matches query) docs.

(** The documents of a collection; a collection never written is empty. *)
Definition docs_of (name : string) (st : store) : list dict :=
  default [] (collections st !! name).

(** [db[name]]: subscripting the handle.  With no connection the handle
    is [None] and the subscript raises [TypeError]. *)
Definition collection (name : string) : M (list dict) :=
  fun db =>
    match db with
    | Some st => (Return (docs_of name st), db)
    | None => (Raise (TypeError "'NoneType' object is not subscriptable"), db)
    end.

(** Modelled from the spec: the store's insert, which files the document
    under a freshly generated identifier at the end of the collection. *)
Definition insert_one (name : string) (doc : dict) (st : store) : N * store :=
  let oid := next_oid st in
  let stored := ("_id", VObjectId oid) :: doc in
  (oid, {| next_oid := N.succ oid;
           collections :=
             <[name := (docs_of name st ++ [stored])%list]> (collections st) |}).

(** Modelled from the spec: [create_document(collection, document)] of the
    absent [database] module: [insert(collection, document)] returning the
    generated identifier, failing with a storage error when the store is
    not connected. *)
Definition create_document (name : string) (data : dict) : M N :=
  fun db =>
    match db with
    | Some st => let '(oid, st') := insert_one name data st in (Return oid, Some st')
    | None => (Raise StorageError, db)
    end.

(** The documents as stored when they are inserted one after the other,
    the first one under the identifier [oid]. *)
Fixpoint with_ids (oid : N) (docs : list dict) : list dict :=
  match docs with
  | [] => []
  | d :: docs' => (("_id", VObjectId oid) :: d) :: with_ids (N.succ oid) docs'
  end.

End Store.

(** ** main.py: the handlers that use the store *)

(** Truth value of [x] in [if x:] for the kinds of value the handlers
    test: the handle, a list or dict (empty or not) and a string (empty
    or not); [None] is false.  [seed] tests the handle with [if db]: a
    handle that is present is a driver [Database], which has no truth
    value and raises [NotImplementedError] when asked for one;
    [test_database] asks [db is not None] instead. *)
Definition truthy_db : M bool :=
  fun db =>
    match db with
    | Some _ => (Raise NotImplementedError, db)
    | None => (Return false, db)
    end.

Definition truthy_list {A} (xs : list A) : bool :=
  match xs with [] => false | _ :: _ => true end.

Definition truthy_str (s : string) : bool := negb (String.eqb s "").

Definition str_list (xs : list string) : value := VList (map VStr xs).

(** The literal [sample_products] of [seed]. *)
Definition sample_products : list dict :=
  [ [("title", VStr "Arctic Edge Pro");
     ("slug", VStr "arctic-edge-pro");
     ("gender", VStr "Unisex");
     ("activity", str_list ["city"; "hiking"; "travel"]);
     ("description",
      VStr "Premium heated jacket engineered for -30°C with sleek urban design.");
     ("price", VFloat (Finite (399 # 1)));
     ("images",
      str_list ["/images/arctic-edge-pro-1.jpg"; "/images/arctic-edge-pro-2.jpg"]);
     ("colors", str_list ["Glacier Blue"; "Charcoal Black"; "Frost White"]);
     ("sizes", str_list ["XS"; "S"; "M"; "L"; "XL"; "XXL"]);
     ("temperature_min_c", VInt (-30));
     ("battery_life_hours", VInt 10);
     ("warmth_level", VInt 9);
     ("features",
      str_list ["waterproof"; "windproof"; "rechargeable"; "lightweight"])];
    [("title", VStr "Polar Stealth Lite");
     ("slug", VStr "polar-stealth-lite");
     ("gender", VStr "Men");
     ("activity", str_list ["city"; "biking"]);
     ("description",
      VStr "Minimal techwear silhouette with targeted heating zones.");
     ("price", VFloat (Finite (329 # 1)));
     ("images", str_list ["/images/polar-stealth-lite-1.jpg"]);
     ("colors", str_list ["Charcoal Black"; "Icy Silver"]);
     ("sizes", str_list ["S"; "M"; "L"; "XL"]);
     ("temperature_min_c", VInt (-20));
     ("battery_life_hours", VInt 8);
     ("warmth_level", VInt 7);
     ("features", str_list ["waterproof"; "windproof"; "rechargeable"])];
    [("title", VStr "Glacier Flow Aero");
     ("slug", VStr "glacier-flow-aero");
     ("gender", VStr "Women");
     ("activity", str_list ["travel"; "hiking"]);
     ("description",
      VStr "Featherlight performance for fast movement in cold climates.");
     ("price", VFloat (Finite (349 # 1)));
     ("images", str_list ["/images/glacier-flow-aero-1.jpg"]);
     ("colors", str_list ["Aurora Blue"; "Frost White"]);
     ("sizes", str_list ["XS"; "S"; "M"; "L"]);
     ("temperature_min_c", VInt (-18));
     ("battery_life_hours", VInt 9);
     ("warmth_level", VInt 8);
     ("features", str_list ["waterproof"; "rechargeable"; "lightweight"])] ].

Section Handlers.

(** Python's [str], on a stored value and on an exception: a builtin whose
    rendering the handlers only pass on.  It is kept abstract. *)
Variable str_value : value -> string.
Variable str_exc : exn -> string.

(** [except Exception as e: raise HTTPException(status_code=500, detail=str(e))]. *)
Definition except_Exception {A} (e : exn) : M A :=
  raise (HTTPException 500 (str_exc e)).

(** [seed()]. *)
Definition seed : M dict :=
  try_except
    (existing <~ (connected <~ truthy_db ;;
                  if connected
                  then docs <~ Store.collection "product" ;;
                       ret (Store.find [] docs)
                  else ret []) ;;
     if truthy_list existing then
       ret [("seeded", VBool false); ("count", VInt (len existing))]
     else
       _ <~ for_each sample_products
              (fun p => _ <~ Store.create_document "product" p ;; ret tt) ;;
       ret [("seeded", VBool true); ("count", VInt (len sample_products))])
    except_Exception.

(** [it["_id"] = str(it["_id"])]: a document without the key raises
    [KeyError]. *)
Definition stringify_id (it : dict) : M dict :=
  match dict_get "_id" it with
  | Some v => ret (dict_set "_id" (VStr (str_value v)) it)
  | None => raise (KeyError "_id")
  end.

(** [for it in items: it["_id"] = str(it["_id"])], giving the items as
    the loop leaves them. *)
Fixpoint stringify_ids (its : list dict) : M (list dict) :=
  match its with
  | [] => ret []
  | it :: its' =>
      it' <~ stringify_id it ;;
      rest <~ stringify_ids its' ;;
      ret (it' :: rest)
  end.

(** The filter that [list_products] builds from its query parameters. *)
Definition products_query (gender activity : option string)
    (min_temp : option Z) : dict :=
  let query := [] in
  let query :=
    match gender with
    | Some g =>
        if truthy_str g then dict_set "gender" (VStr g) query else query
    | None => query
    end in
  let query :=
    match activity with
    | Some a =>
        if truthy_str a
        then dict_set "activity" (VDict [("$in", VList [VStr a])]) query
        else query
    | None => query
    end in
  match min_temp with
  | Some t => dict_set "temperature_min_c" (VDict [("$lte", VInt t)]) query
  | None => query
  end.

(** [list_products(gender, activity, min_temp)]. *)
Definition list_products (gender activity : option string)
    (min_temp : option Z) : M (list dict) :=
  let query := products_query gender activity min_temp in
  try_except
    (docs <~ Store.collection "product" ;;
     stringify_ids (Store.find query docs))
    except_Exception.

(** [get_product(slug)]: an [HTTPException] raised in the body is
    re-raised as it is, any other exception becomes a 500. *)
Definition get_product (slug : string) : M dict :=
  try_except
    (docs <~ Store.collection "product" ;;
     match Store.find_one [("slug", VStr slug)] docs with
     | Some doc =>
         if negb (truthy_list doc)
         then raise (HTTPException 404 "Product not found")
         else stringify_id doc
     | None => raise (HTTPException 404 "Product not found")
     end)
    (fun e =>
       match e with
       | HTTPException _ _ => raise e
       | _ => except_Exception e
       end).

(** [checkout(order)]. *)
Definition checkout (order : Schemas.Order) : M dict :=
  try_except
    (_ <~ Store.create_document "order" (Schemas.Order_dump order) ;;
     ret [("ok", VBool true)])
    except_Exception.

(** ** The request boundary *)

(** What [json.dumps(..., allow_nan=False)] of the framework can write:
    no infinity or NaN, and no driver identifier. *)
Fixpoint renderable (v : value) : bool :=
  match v with
  | VNone => true
  | VBool _ => true
  | VInt _ => true
  | VFloat (Finite _) => true
  | VFloat _ => false
  | VStr _ => true
  | VList l =>
      (fix go (l : list value) : bool :=
         match l with
         | [] => true
         | x :: l' => renderable x && go l'
         end) l
  | VDict d =>
      (fix go (d : dict) : bool :=
         match d with
         | [] => true
         | (_, x) :: d' => renderable x && go d'
         end) d
  | VObjectId _ => false
  end.

(** What the framework sends back: the handler's return value with status
    200, the status and detail of an [HTTPException], a 422 naming the
    fields that failed validation, or a bare 500 for an exception that
    nothing caught: one that left a handler, or the [ValueError] of the
    renderer, which runs after the handler has returned. *)
Inductive response : Type :=
| Success (content : value)
| ErrorResponse (status_code : Z) (detail : string)
| Unprocessable (errors : list string)
| Uncaught (e : exn).

Definition status (r : response) : Z :=
  match r with
  | Success _ => 200
  | ErrorResponse code _ => code
  | Unprocessable _ => 422
  | Uncaught _ => 500
  end.

(** Rendering the value that a handler returned. *)
Definition render (content : value) : response :=
  if renderable content then Success content else Uncaught ValueError.

(** Rendering a validation error, which echoes the inputs at fault. *)
Definition unprocessable (errors : list string) (inputs : list value)
    : response :=
  if renderable (VList inputs) then Unprocessable errors
  else Uncaught ValueError.

Definition respond (o : outcome dict) : response :=
  match o with
  | Return d => render (VDict d)
  | Raise (HTTPException code detail) => ErrorResponse code detail
  | Raise e => Uncaught e
  end.

(** [POST /size/recommend]: the body is validated as a [SizeProfile]
    before [recommend_size] is called.  The inputs that its validation
    error echoes are integers, which always render. *)
Definition post_size_recommend (body : SizeProfile) : response :=
  match Schemas.SizeProfile_errors body with
  | [] => respond (Return (Size.recommend_size body))
  | errs => Unprocessable errs
  end.

(** [POST /checkout]: the body is validated as an [Order] before
    [checkout] is called.  Its validation error echoes the total when
    that is at fault, and a total that is not finite cannot be
    rendered. *)
Definition post_checkout (body : Schemas.Order) (db : database)
    : response * database :=
  match Schemas.Order_errors body with
  | [] => let '(o, db') := checkout body db in (respond o, db')
  | errs => (unprocessable errs (Schemas.Order_error_inputs body), db)
  end.

End Handlers.

(** ** Concrete renderings and stores for running the handlers *)

Module Sample.

Fixpoint zeros (n : nat) : string :=
  match n with
  | O => ""
  | S n' => "0" ++ zeros n'
  end.

(** [str] of an identifier: its 24 hexadecimal digits. *)
Definition hex24 (oid : N) : string :=
  let digits := HexadecimalString.NilZero.string_of_uint (N.to_hex_uint oid) in
  zeros (24 - String.length digits) ++ digits.

(** [str] on the values that occur under [_id] in the stores below
    (identifiers) and on strings; the other kinds are not rendered. *)
Definition str_value (v : value) : string :=
  match v with
  | VObjectId oid => hex24 oid
  | VStr s => s
  | _ => ""
  end.

(** [str] of an exception: its message. *)
Definition str_exc (e : exn) : string :=
  match e with
  | HTTPException _ detail => detail
  | KeyError key => "'" ++ key ++ "'"
  | TypeError msg => msg
  | StorageError => "storage error"
  | NotImplementedError =>
      "Database objects do not implement truth value testing or bool(). Please compare with None instead: database is not None"
  | ValueError => "Out of range float values are not JSON compliant"
  end.

(** A connected store that holds nothing yet. *)
Definition empty_store : store := {| next_oid := 0; collections := ∅ |}.

(** A connected store that holds the three sample products, as inserted
    one after the other into the empty store. *)
Definition seeded_db : database :=
  Some {| next_oid := 3;
          collections :=
            {[ "product" := Store.with_ids 0 sample_products ]} |}.

(** A store with one product rated for +5 degrees. *)
Definition mild_store : store :=
  {| next_oid := 1;
     collections :=
       {[ "product" :=
            [[("_id", VObjectId 0);
              ("slug", VStr "spring-shell");
              ("gender", VStr "Women");
              ("temperature_min_c", VInt 5)]] ]} |}.

Definition order_minus_5 : Schemas.Order :=
  Schemas.mkOrder
    [Schemas.mkOrderItem "arctic-edge-pro" "M" "Frost White" 1]
    "a@example.com" "A. Buyer" "1 Ice Road" "Oslo" "NO" "0150"
    (Finite (-5 # 1)).

End Sample.

(** ** schemas.py: Review and ContactMessage *)

Module Review.

Record t : Type := mk {
  product_slug : string;
  name : string;
  rating : Z;
  comment : string;
  city : option string
}.

(** [rating: int = Field(..., ge=1, le=5)]. *)
Definition errors (r : t) : list string :=
  check ((1 <=? rating r)%Z && (rating r <=? 5)%Z) "rating".

(** [model_dump()] of a review; an absent city is [None]. *)
Definition dump (r : t) : dict :=
  [("product_slug", VStr (product_slug r));
   ("name", VStr (name r));
   ("rating", VInt (rating r));
   ("comment", VStr (comment r));
   ("city", match city r with Some c => VStr c | None => VNone end)].

End Review.

Module ContactMessage.

Record t : Type := mk {
  name : string;
  email : string;
  message : string
}.

(** [model_dump()] of a contact message. *)
Definition dump (m : t) : dict :=
  [("name", VStr (name m));
   ("email", VStr (email m));
   ("message", VStr (message m))].

End ContactMessage.

(** ** main.py: the remaining handlers *)

Section MoreHandlers.

Variable str_value : value -> string.
Variable str_exc : exn -> string.

(** [os.getenv]: the value of an environment variable, if it is set. *)
Variable getenv : string -> option string.

(** [db.list_collection_names()]: a call into the driver, which gives the
    names or raises. *)
Variable list_collection_names : store -> outcome (list string).

(** A document as the serialising loop leaves it. *)
Definition with_str_id (it : dict) : dict :=
  match dict_get "_id" it with
  | Some v => dict_set "_id" (VStr (str_value v)) it
  | None => it
  end.

(** [root()]. *)
Definition root : dict :=
  [("brand", VStr "Amberarctic"); ("status", VStr "ok")].

(** The flag that [test_database] shows for an environment variable: a
    variable that is unset, or set to the empty string, is not truthy. *)
Definition env_flag (name : string) : string :=
  match getenv name with
  | Some v => if truthy_str v then "✅ Set" else "❌ Not Set"
  | None => "❌ Not Set"
  end.

(** A byte that continues a character of a UTF-8 string (10xxxxxx). *)
Definition is_continuation (c : Ascii.ascii) : bool :=
  let n := Ascii.nat_of_ascii c in
  (128 <=? n)%nat && (n <? 192)%nat.

(** [s[:n]]: the first [n] characters of a string, which is held here as
    its UTF-8 bytes. *)
Fixpoint take_chars (n : nat) (s : string) : string :=
  match s with
  | EmptyString => EmptyString
  | String c s' =>
      if is_continuation c then String c (take_chars n s')
      else
        match n with
        | O => EmptyString
        | S n' => String c (take_chars n' s')
        end
  end.

(** [str(e)[:60]]. *)
Definition first_60 (s : string) : string := take_chars 60 s.

(** [test_database()].  Nothing between the outer [try] and the inner
    one can raise, so the outer [except] is never entered; the inner one
    catches what listing the collections raises. *)
Definition test_database (db : database) : dict :=
  let response :=
    [("backend", VStr "✅ Running");
     ("database", VStr "❌ Not Available");
     ("database_url", VStr (env_flag "DATABASE_URL"));
     ("database_name", VStr (env_flag "DATABASE_NAME"));
     ("connection_status", VStr "Not Connected");
     ("collections", VList [])] in
  match db with
  | Some st =>
      let response := dict_set "database" (VStr "✅ Connected") response in
      let response := dict_set "connection_status" (VStr "Connected") response in
      match list_collection_names st with
      | Return names =>
          let response := dict_set "collections" (str_list names) response in
          dict_set "database" (VStr "✅ Connected & Working") response
      | Raise e =>
          dict_set "database"
            (VStr ("⚠️ Connected but Error: " ++ first_60 (str_exc e))) response
      end
  | None => dict_set "database" (VStr "⚠️ Available but not initialized") response
  end.

(** [get_reviews(product_slug)]. *)
Definition get_reviews (product_slug : string) : M (list dict) :=
  try_except
    (docs <~ Store.collection "review" ;;
     stringify_ids str_value
       (Store.find [("product_slug", VStr product_slug)] docs))
    (except_Exception str_exc).

(** [add_review(review)]. *)
Definition add_review (review : Review.t) : M dict :=
  try_except
    (_ <~ Store.create_document "review" (Review.dump review) ;;
     ret [("ok", VBool true)])
    (except_Exception str_exc).

(** [send_contact(msg)]. *)
Definition send_contact (msg : ContactMessage.t) : M dict :=
  try_except
    (_ <~ Store.create_document "contactmessage" (ContactMessage.dump msg) ;;
     ret [("ok", VBool true)])
    (except_Exception str_exc).

(** ** The routes *)

(** The response to a handler that returns a list of documents. *)
Definition respond_list (o : outcome (list dict)) : response :=
  match o with
  | Return ds => render (VList (map VDict ds))
  | Raise (HTTPException code detail) => ErrorResponse code detail
  | Raise e => Uncaught e
  end.

(** [POST /reviews]: the body is validated as a [Review] before
    [add_review] is called.  The input that its validation error echoes
    is an integer, which always renders. *)
Definition post_reviews (body : Review.t) (db : database)
    : response * database :=
  match Review.errors body with
  | [] => let '(o, db') := add_review body db in (respond o, db')
  | errs => (Unprocessable errs, db)
  end.

(** [POST /contact]: [ContactMessage] has three string fields and no
    constraint on them. *)
Definition post_contact (body : ContactMessage.t) (db : database)
    : response * database :=
  let '(o, db') := send_contact body db in (respond o, db').

(** A request, with its query parameters, path parameter or body already
    of the declared types. *)
Inductive request : Type :=
| GET_root
| GET_test
| POST_seed
| GET_products (gender activity : option string) (min_temp : option Z)
| GET_product (slug : string)
| GET_reviews (product_slug : string)
| POST_reviews (body : Review.t)
| POST_contact (body : ContactMessage.t)
| POST_size_recommend (body : SizeProfile)
| POST_checkout (body : Schemas.Order).

(** The route table of [app]. *)
Definition handle (req : request) (db : database) : response * database :=
  match req with
  | GET_root => (respond (Return root), db)
  | GET_test => (respond (Return (test_database db)), db)
  | POST_seed => let '(o, db') := seed str_exc db in (respond o, db')
  | GET_products g a m =>
      let '(o, db') := list_products str_value str_exc g a m db in
      (respond_list o, db')
  | GET_product slug =>
      let '(o, db') := get_product str_value str_exc slug db in
      (respond o, db')
  | GET_reviews slug =>
      let '(o, db') := get_reviews slug db in (respond_list o, db')
  | POST_reviews body => post_reviews body db
  | POST_contact body => post_contact body db
  | POST_size_recommend body => (post_size_recommend body, db)
  | POST_checkout body => post_checkout str_exc body db
  end.


End MoreHandlers.

(** ** Notions used in the statements *)



(** The place of a label in the run of sizes, XS first. *)
Definition size_rank (label : string) : nat :=
  if String.eqb label "XS" then 0
  else if String.eqb label "S" then 1
  else if String.eqb label "M" then 2
  else if String.eqb label "L" then 3
  else if String.eqb label "XL" then 4
  else 5.

Module Fixtures.

(** An environment with the database URL set and the name set to the
    empty string. *)
Definition getenv (name : string) : option string :=
  if String.eqb name "DATABASE_URL" then Some "mongodb://localhost"
  else if String.eqb name "DATABASE_NAME" then Some ""
  else None.

(** A driver whose listing gives the names of the collections written so
    far. *)
Definition list_collection_names (st : store) : outcome (list string) :=
  Return (map fst (map_to_list (collections st))).

(** A driver whose listing fails. *)
Definition listing_fails (st : store) : outcome (list string) :=
  Raise (TypeError "connection refused").

Definition review_5 : Review.t :=
  Review.mk "arctic-edge-pro" "Ida" 5 "Warm at -25." (Some "Tromso").

Definition review_0 : Review.t :=
  Review.mk "arctic-edge-pro" "Ida" 0 "Cold." None.

Definition hello : ContactMessage.t :=
  ContactMessage.mk "Ida" "ida@example.com" "Do you ship to Svalbard?".


Definition order_no_quantity : Schemas.Order :=
  Schemas.mkOrder
    [Schemas.mkOrderItem "arctic-edge-pro" "M" "Frost White" 0]
    "a@example.com" "A. Buyer" "1 Ice Road" "Oslo" "NO" "0150"
    (Finite (0 # 1)).

(** An order whose total is [-inf], and one whose total is [nan]. *)
Definition order_minus_inf : Schemas.Order :=
  Schemas.mkOrder
    [Schemas.mkOrderItem "arctic-edge-pro" "M" "Frost White" 1]
    "a@example.com" "A. Buyer" "1 Ice Road" "Oslo" "NO" "0150" NegInf.

Definition order_nan : Schemas.Order :=
  Schemas.mkOrder
    [Schemas.mkOrderItem "arctic-edge-pro" "M" "Frost White" 1]
    "a@example.com" "A. Buyer" "1 Ice Road" "Oslo" "NO" "0150" NaN.

(** The three sample products of [Sample.seeded_db] as [GET /products]
    lists them. *)
Definition all_listed : list dict :=
  map (with_str_id Sample.str_value) (Store.with_ids 0 sample_products).

Definition arctic_listed : dict := nth 0 all_listed [].
Definition polar_listed : dict := nth 1 all_listed [].

(** That store after one accepted review. *)
Definition reviewed_db : database :=
  snd (add_review Sample.str_exc review_5 Sample.seeded_db).

(** That review as [GET /reviews/arctic-edge-pro] lists it. *)
Definition review_listed : dict :=
  ("_id", VStr (Sample.str_value (VObjectId 3))) :: Review.dump review_5.

End Fixtures.

(** ** Properties of the size recommendation *)

Section SizeFacts.
Import Size.

Lemma str_in_build (b : string) :
  str_in b ["athletic"; "broad"] = true <-> b = "athletic" \/ b = "broad".
Proof.
  unfold str_in; simpl.
  rewrite !orb_true_iff, !String.eqb_eq. intuition discriminate.
Qed.

Lemma score_spec (p : SizeProfile) :
  score p = spec_score (height_cm p) (weight_kg p) (build p).
Proof.
  unfold score, spec_score.
  destruct (str_in (build p) ["athletic"; "broad"]) eqn:E.
  - apply str_in_build in E. rewrite decide_True by exact E. lia.
  - rewrite decide_False; [lia|].
    intros H. apply str_in_build in H. congruence.
Qed.

Lemma label_bands (s : Z) :
  (s < 0 -> label s = "XS") /\
  (0 <= s < 10 -> label s = "S") /\
  (10 <= s < 20 -> label s = "M") /\
  (20 <= s < 30 -> label s = "L") /\
  (30 <= s < 40 -> label s = "XL") /\
  (40 <= s -> label s = "XXL").
Proof.
  unfold label.
  repeat split; intros H;
    repeat (match goal with
            | |- context [Z.ltb ?a ?b] => destruct (Z.ltb_spec a b)
            end; try lia); reflexivity.
Qed.

End SizeFacts.

(** C1. For a profile within the validated bounds, the response of
    [recommend_size] carries the label of the band in which the score
    (height_cm - 160) + (weight_kg - 60), plus 10 for an athletic or
    broad build, falls: below 0 XS, below 10 S, below 20 M, below 30 L,
    below 40 XL, otherwise XXL.  The bands are strict, so the scores
    0, 10, 20, 30 and 40 give S, M, L, XL and XXL, and 170 cm, 70 kg with
    an average build gives L. *)
Theorem recommend_size_bands (p : SizeProfile) :
  120 <= height_cm p <= 230 ->
  35 <= weight_kg p <= 180 ->
  let s := Size.spec_score (height_cm p) (weight_kg p) (build p) in
  (s < 0 -> Size.recommend_size p = Size.size_response "XS") /\
  (0 <= s < 10 -> Size.recommend_size p = Size.size_response "S") /\
  (10 <= s < 20 -> Size.recommend_size p = Size.size_response "M") /\
  (20 <= s < 30 -> Size.recommend_size p = Size.size_response "L") /\
  (30 <= s < 40 -> Size.recommend_size p = Size.size_response "XL") /\
  (40 <= s -> Size.recommend_size p = Size.size_response "XXL") /\
  (s = 0 -> Size.recommend_size p = Size.size_response "S") /\
  (s = 10 -> Size.recommend_size p = Size.size_response "M") /\
  (s = 20 -> Size.recommend_size p = Size.size_response "L") /\
  (s = 30 -> Size.recommend_size p = Size.size_response "XL") /\
  (s = 40 -> Size.recommend_size p = Size.size_response "XXL") /\
  (height_cm p = 170 -> weight_kg p = 70 -> build p = "average" ->
   Size.recommend_size p = Size.size_response "L").
Proof.
  intros _ _ s.
  unfold Size.recommend_size, Size.size_response.
  rewrite score_spec. fold s.
  destruct (label_bands s) as (Hxs & Hs & Hm & Hl & Hxl & Hxxl).
  repeat split; intros.
  - now rewrite Hxs.
  - now rewrite Hs.
  - now rewrite Hm.
  - now rewrite Hl.
  - now rewrite Hxl.
  - now rewrite Hxxl.
  - now rewrite Hs by lia.
  - now rewrite Hm by lia.
  - now rewrite Hl by lia.
  - now rewrite Hxl by lia.
  - now rewrite Hxxl by lia.
  - assert (Es : s = 20).
    { subst s. unfold Size.spec_score.
      replace (build p) with "average" by congruence.
      replace (height_cm p) with 170 by congruence.
      replace (weight_kg p) with 70 by congruence.
      reflexivity. }
    now rewrite Hl by lia.
Qed.

Lemma recommend_size_bands_witness :
  Size.recommend_size (mkSizeProfile 170 70 "average" None)
  = Size.size_response "L".
Proof.
  assert (Hh : 120 <= 170 <= 230) by lia.
  assert (Hw : 35 <= 70 <= 180) by lia.
  apply (recommend_size_bands (mkSizeProfile 170 70 "average" None) Hh Hw);
    reflexivity.
Defined.

(** C2. Two profiles that agree on height, weight and build get the same
    response, whatever their genders: the recommendation is a function of
    those three fields alone. *)
Theorem recommend_size_ignores_gender (p1 p2 : SizeProfile) :
  height_cm p1 = height_cm p2 ->
  weight_kg p1 = weight_kg p2 ->
  build p1 = build p2 ->
  Size.recommend_size p1 = Size.recommend_size p2.
Proof.
  intros Hh Hw Hb.
  unfold Size.recommend_size, Size.score.
  now rewrite Hh, Hw, Hb.
Qed.

Lemma recommend_size_ignores_gender_witness :
  Size.recommend_size (mkSizeProfile 182 77 "broad" (Some "Men"))
  = Size.recommend_size (mkSizeProfile 182 77 "broad" None).
Proof.
  apply (recommend_size_ignores_gender
           (mkSizeProfile 182 77 "broad" (Some "Men"))
           (mkSizeProfile 182 77 "broad" None)); reflexivity.
Defined.

(** C10. A build other than the exact strings "athletic" and "broad"
    adds nothing to the score, so the response is the one for the build
    "average"; this includes other casings of the two words. *)
Theorem build_adjustment_exact (p : SizeProfile) :
  build p <> "athletic" ->
  build p <> "broad" ->
  Size.score p = (height_cm p - 160) + (weight_kg p - 60) /\
  Size.recommend_size p
  = Size.recommend_size
      (mkSizeProfile (height_cm p) (weight_kg p) "average" (gender p)).
Proof.
  intros Ha Hb.
  assert (E : Size.score p = (height_cm p - 160) + (weight_kg p - 60)).
  { unfold Size.score.
    destruct (str_in (build p) ["athletic"; "broad"]) eqn:Hin; [|reflexivity].
    apply str_in_build in Hin. tauto. }
  split; [exact E|].
  unfold Size.recommend_size. rewrite E. reflexivity.
Qed.

Lemma build_adjustment_exact_witness :
  Size.score (mkSizeProfile 160 60 "Athletic" None) = 0 /\
  Size.recommend_size (mkSizeProfile 160 60 "Athletic" None)
  = Size.recommend_size (mkSizeProfile 160 60 "average" None).
Proof.
  apply (build_adjustment_exact (mkSizeProfile 160 60 "Athletic" None));
    simpl; discriminate.
Defined.

(** The two lowercase words do add 10, and an upper-case spelling does
    not. *)
Lemma build_adjustment_applies (p : SizeProfile) :
  build p = "athletic" \/ build p = "broad" ->
  Size.score p = (height_cm p - 160) + (weight_kg p - 60) + 10.
Proof.
  intros H. apply str_in_build in H. unfold Size.score. now rewrite H.
Qed.

Example build_upper_case :
  Size.recommend_size (mkSizeProfile 160 60 "BROAD" None)
  = Size.size_response "S" /\
  Size.recommend_size (mkSizeProfile 160 60 "broad" None)
  = Size.size_response "M".
Proof. split; reflexivity. Qed.

(** ** Properties of validation *)

Section ValidationFacts.
Import Schemas.

Lemma check_nil (ok : bool) (loc : string) : check ok loc = [] <-> ok = true.
Proof. destruct ok; simpl; split; congruence. Qed.

Lemma SizeProfile_errors_nil (p : SizeProfile) :
  SizeProfile_errors p = [] <->
  120 <= height_cm p <= 230 /\ 35 <= weight_kg p <= 180.
Proof.
  unfold SizeProfile_errors.
  rewrite app_nil, !check_nil, !andb_true_iff, !Z.leb_le. tauto.
Qed.

Lemma negative_fails_ge_0 (f : pyfloat) :
  float_negative f -> float_ge f 0 = false.
Proof.
  destruct f as [q| | |]; simpl; try tauto.
  intros H. destruct (Qle_bool 0 q) eqn:E; [|reflexivity].
  apply Qle_bool_iff in E. exfalso. exact (Qlt_not_le _ _ H E).
Qed.

Lemma negative_total_fails (o : Order) :
  float_negative (total o) -> In "total" (Order_errors o).
Proof.
  intros H. unfold Order_errors. apply in_or_app. right.
  rewrite (negative_fails_ge_0 _ H). simpl. now left.
Qed.

(** The quantities that a validation error echoes are integers. *)
Lemma quantity_inputs_render (its : list OrderItem) :
  renderable
    (VList (flat_map
              (fun it => if (1 <=? quantity it)%Z then [] else [VInt (quantity it)])
              its)) = true.
Proof.
  induction its as [|it its IH]; [reflexivity|].
  simpl flat_map. destruct (1 <=? quantity it)%Z; exact IH.
Qed.

Lemma renderable_app (xs ys : list value) :
  renderable (VList (xs ++ ys)) = renderable (VList xs) && renderable (VList ys).
Proof.
  induction xs as [|x xs IH]; [reflexivity|].
  simpl in *. rewrite IH. now rewrite andb_assoc.
Qed.

(** The error of an order renders unless the total is at fault and is
    [-inf] or [nan]. *)
Lemma Order_error_inputs_render (o : Order) :
  renderable (VList (Order_error_inputs o))
  = match total o with
    | NegInf => false
    | NaN => false
    | _ => true
    end.
Proof.
  unfold Order_error_inputs.
  rewrite renderable_app, quantity_inputs_render.
  destruct (total o) as [q| | |]; simpl; try reflexivity.
  destruct (Qle_bool 0 q); reflexivity.
Qed.

End ValidationFacts.

(** C7. [POST /size/recommend] answers 422 exactly when the height is
    outside 120..230 or the weight is outside 35..180; within the bounds
    it answers 200 with the recommendation, whatever string the build
    is. *)
Theorem size_recommend_rejects_out_of_bounds (body : SizeProfile) :
  (status (post_size_recommend body) = 422 <->
   (height_cm body < 120 \/ 230 < height_cm body \/
    weight_kg body < 35 \/ 180 < weight_kg body)) /\
  (forall b : string,
     120 <= height_cm body <= 230 ->
     35 <= weight_kg body <= 180 ->
     let body' := mkSizeProfile (height_cm body) (weight_kg body) b (gender body) in
     post_size_recommend body' = Success (VDict (Size.recommend_size body'))).
Proof.
  split.
  - unfold post_size_recommend.
    destruct (Schemas.SizeProfile_errors body) eqn:E.
    + apply SizeProfile_errors_nil in E. simpl. split; [discriminate | lia].
    + simpl. split; [intros _ | reflexivity].
      destruct (Z_lt_dec (height_cm body) 120); [tauto|].
      destruct (Z_lt_dec 230 (height_cm body)); [tauto|].
      destruct (Z_lt_dec (weight_kg body) 35); [tauto|].
      destruct (Z_lt_dec 180 (weight_kg body)); [tauto|].
      exfalso.
      assert (Schemas.SizeProfile_errors body = []) as E'
          by (apply SizeProfile_errors_nil; lia).
      congruence.
  - intros b Hh Hw body'. unfold post_size_recommend.
    assert (Schemas.SizeProfile_errors body' = []) as ->
        by (apply SizeProfile_errors_nil; simpl; lia).
    reflexivity.
Qed.

Example size_recommend_free_text_build :
  post_size_recommend (mkSizeProfile 170 70 "stocky" None)
  = Success (VDict (Size.size_response "L")) /\
  post_size_recommend (mkSizeProfile 119 70 "average" None)
  = Unprocessable ["height_cm"] /\
  post_size_recommend (mkSizeProfile 170 181 "average" None)
  = Unprocessable ["weight_kg"].
Proof. repeat split; reflexivity. Qed.

(** C8. A [Product] built without [sizes] gets the six standard sizes,
    and built without [activity], [images], [colors] or [features] gets
    the empty list for that field; the construction succeeds whenever the
    price and the warmth level are within their bounds. *)
Theorem Product_defaults (a : Schemas.ProductArgs) :
  float_ge (Schemas.arg_price a) 0 = true ->
  1 <= Schemas.arg_warmth_level a <= 10 ->
  exists p : Schemas.Product,
    Schemas.Product_init a = inl p /\
    (Schemas.arg_sizes a = None ->
     Schemas.sizes p = ["XS"; "S"; "M"; "L"; "XL"; "XXL"]) /\
    (Schemas.arg_activity a = None -> Schemas.activity p = []) /\
    (Schemas.arg_images a = None -> Schemas.images p = []) /\
    (Schemas.arg_colors a = None -> Schemas.colors p = []) /\
    (Schemas.arg_features a = None -> Schemas.features p = []).
Proof.
  intros Hp Hw.
  unfold Schemas.Product_init, Schemas.Product_errors.
  rewrite Hp.
  assert ((1 <=? Schemas.arg_warmth_level a)%Z
          && (Schemas.arg_warmth_level a <=? 10)%Z = true) as ->
      by (apply andb_true_iff; split; apply Z.leb_le; lia).
  simpl. eexists. split; [reflexivity|].
  simpl. repeat split; intros ->; reflexivity.
Qed.

Lemma Product_defaults_witness :
  exists p : Schemas.Product,
    Schemas.Product_init
      (Schemas.mkProductArgs "Arctic Edge Pro" "arctic-edge-pro" "Unisex"
         None None (Finite (399 # 1)) None None None (-30) 10 9 None) = inl p /\
    Schemas.sizes p = ["XS"; "S"; "M"; "L"; "XL"; "XXL"] /\
    Schemas.activity p = [] /\ Schemas.images p = [] /\
    Schemas.colors p = [] /\ Schemas.features p = [].
Proof.
  assert (Hp : float_ge (Finite (399 # 1)) 0 = true) by reflexivity.
  assert (Hw : 1 <= 9 <= 10) by lia.
  destruct (Product_defaults
              (Schemas.mkProductArgs "Arctic Edge Pro" "arctic-edge-pro"
                 "Unisex" None None (Finite (399 # 1)) None None None
                 (-30) 10 9 None)
              Hp Hw) as (p & Hinit & Hs & Ha & Hi & Hc & Hf).
  exists p. split; [exact Hinit|].
  repeat split; [apply Hs | apply Ha | apply Hi | apply Hc | apply Hf];
    reflexivity.
Defined.

(** C6, as amended.  An order whose total is negative fails validation
    before the handler is reached, so the database handle comes back as
    it was.  When the total is a finite negative number the answer is a
    422 naming the field; when it is [-inf] the 422, which echoes the
    input, cannot be rendered, and the answer is a bare 500. *)
Theorem checkout_rejects_negative_total
    (str_exc : exn -> string) (body : Schemas.Order) (db : database) :
  float_negative (Schemas.total body) ->
  snd (post_checkout str_exc body db) = db /\
  In "total" (Schemas.Order_errors body) /\
  (Schemas.total body <> NegInf ->
   exists errs : list string,
     post_checkout str_exc body db = (Unprocessable errs, db) /\
     In "total" errs /\
     status (fst (post_checkout str_exc body db)) = 422) /\
  (Schemas.total body = NegInf ->
   post_checkout str_exc body db = (Uncaught ValueError, db) /\
   status (fst (post_checkout str_exc body db)) = 500).
Proof.
  intros Hneg. pose proof (negative_total_fails body Hneg) as Hin.
  unfold post_checkout, unprocessable.
  rewrite Order_error_inputs_render.
  destruct (Schemas.Order_errors body) as [|e errs] eqn:E; [destruct Hin|].
  destruct (Schemas.total body) as [q| | |]; simpl in Hneg;
    try (exfalso; exact Hneg).
  - split; [reflexivity|]. split; [exact Hin|]. split.
    + intros _. exists (e :: errs). split; [reflexivity|].
      split; [exact Hin | reflexivity].
    + discriminate.
  - split; [reflexivity|]. split; [exact Hin|]. split.
    + intros H. congruence.
    + intros _. split; reflexivity.
Qed.

Lemma checkout_rejects_negative_total_witness :
  snd (post_checkout Sample.str_exc Sample.order_minus_5
         (Some Sample.empty_store)) = Some Sample.empty_store /\
  exists errs : list string,
    post_checkout Sample.str_exc Sample.order_minus_5 (Some Sample.empty_store)
    = (Unprocessable errs, Some Sample.empty_store) /\
    In "total" errs /\
    status (fst (post_checkout Sample.str_exc Sample.order_minus_5
                   (Some Sample.empty_store))) = 422.
Proof.
  assert (Hneg : float_negative (Schemas.total Sample.order_minus_5))
    by (simpl; unfold Qlt; simpl; lia).
  destruct (checkout_rejects_negative_total Sample.str_exc Sample.order_minus_5
              (Some Sample.empty_store) Hneg) as (Hdb & _ & Hfinite & _).
  split; [exact Hdb|]. apply Hfinite. discriminate.
Defined.

(** C6, as the claim words it, fails on the code: a total of [-inf] is
    negative, and the answer is a bare 500, not a 422. *)
Lemma checkout_minus_infinity_is_not_422 :
  ~ (forall (str_exc : exn -> string) (body : Schemas.Order) (db : database),
       float_negative (Schemas.total body) ->
       status (fst (post_checkout str_exc body db)) = 422).
Proof.
  intros H.
  specialize (H Sample.str_exc Fixtures.order_minus_inf
                (Some Sample.empty_store) I).
  vm_compute in H. discriminate H.
Qed.

Example checkout_not_a_number :
  post_checkout Sample.str_exc Fixtures.order_nan (Some Sample.empty_store)
  = (Uncaught ValueError, Some Sample.empty_store) /\
  post_checkout Sample.str_exc Fixtures.order_minus_inf
    (Some Sample.empty_store)
  = (Uncaught ValueError, Some Sample.empty_store).
Proof. split; vm_compute; reflexivity. Qed.

(** ** Properties of dicts and of the store's filters *)

Section StoreFacts.
Import Store.

Lemma dict_get_set_eq (k : string) (v : value) (d : dict) :
  dict_get k (dict_set k v d) = Some v.
Proof.
  induction d as [|[k' v'] d IH]; simpl.
  - now rewrite String.eqb_refl.
  - destruct (String.eqb k' k) eqn:E; simpl.
    + now rewrite String.eqb_refl.
    + now rewrite E.
Qed.

Lemma dict_get_set_ne (k k' : string) (v : value) (d : dict) :
  k <> k' -> dict_get k' (dict_set k v d) = dict_get k' d.
Proof.
  intros Hne. induction d as [|[k0 v0] d IH]; simpl.
  - apply String.eqb_neq in Hne. now rewrite Hne.
  - destruct (String.eqb k0 k) eqn:E; simpl.
    + apply String.eqb_eq in E. subst k0.
      apply String.eqb_neq in Hne. now rewrite Hne.
    + destruct (String.eqb k0 k'); [reflexivity | exact IH].
Qed.

(** A filter to which a condition was added holds that condition. *)
Lemma matches_dict_set (k : string) (c : value) (q doc : dict) :
  matches (dict_set k c q) doc = true ->
  matches_cond (dict_get k doc) c = true.
Proof.
  unfold matches. induction q as [|[k' c'] q IH]; simpl.
  - rewrite andb_true_r. auto.
  - destruct (String.eqb k' k); simpl; rewrite andb_true_iff; intros [H1 H2].
    + exact H1.
    + exact (IH H2).
Qed.

Lemma matches_cond_lte (field : option value) (t : Z) :
  matches_cond field (VDict [("$lte", VInt t)]) = true ->
  exists v q, field = Some v /\ number v = Some q /\ (q <= inject_Z t)%Q.
Proof.
  unfold matches_cond.
  change (String.eqb "$lte" "$in") with false.
  change (String.eqb "$lte" "$lte") with true.
  cbv iota. simpl number at 1.
  destruct field as [v|]; [|discriminate].
  destruct (number v) as [q|] eqn:E; [|discriminate].
  intros H. apply Qle_bool_iff in H. eauto.
Qed.

Lemma value_eqb_str (v : value) (s : string) :
  value_eqb v (VStr s) = true <-> v = VStr s.
Proof.
  destruct v; simpl; try (split; [discriminate | congruence]).
  rewrite String.eqb_eq. split; congruence.
Qed.

Lemma matches_slug (slug : string) (doc : dict) :
  matches [("slug", VStr slug)] doc = true <->
  dict_get "slug" doc = Some (VStr slug).
Proof.
  unfold matches; simpl. rewrite andb_true_r.
  destruct (dict_get "slug" doc) as [v|]; simpl.
  - rewrite value_eqb_str. split; congruence.
  - split; discriminate.
Qed.

Lemma find_all (docs : list dict) : find [] docs = docs.
Proof.
  unfold find. induction docs as [|d docs IH]; simpl; [reflexivity|].
  now rewrite IH.
Qed.

Lemma find_one_none (query : dict) (docs : list dict) :
  (forall d, In d docs -> matches query d = false) ->
  find_one query docs = None.
Proof.
  intros H. unfold find_one.
  induction docs as [|d docs IH]; simpl; [reflexivity|].
  rewrite (H d) by now left. apply IH. intros d' Hd'. apply H. now right.
Qed.

Lemma find_one_first (query : dict) (pre post : list dict) (d : dict) :
  (forall d', In d' pre -> matches query d' = false) ->
  matches query d = true ->
  find_one query (pre ++ d :: post)%list = Some d.
Proof.
  intros Hpre Hd. unfold find_one.
  induction pre as [|p pre IH]; simpl.
  - now rewrite Hd.
  - rewrite (Hpre p) by now left. apply IH. intros d' Hd'. apply Hpre. now right.
Qed.

Lemma docs_of_insert_one (name : string) (doc : dict) (st : store) :
  docs_of name (snd (insert_one name doc st))
  = (docs_of name st ++ [("_id", VObjectId (next_oid st)) :: doc])%list.
Proof.
  unfold insert_one, docs_of at 1. simpl. now rewrite lookup_insert_eq.
Qed.

Lemma docs_of_insert_one_ne (name name' : string) (doc : dict) (st : store) :
  name <> name' ->
  docs_of name' (snd (insert_one name doc st)) = docs_of name' st.
Proof.
  intros Hne. unfold insert_one, docs_of. simpl.
  now rewrite lookup_insert_ne.
Qed.

(** Inserting a list of documents in turn, on a connected store, adds
    them at the end of the collection under consecutive identifiers and
    touches no other collection. *)
Lemma insert_all (name : string) (docs : list dict) (st : store) :
  exists st',
    for_each docs (fun p => _ <~ create_document name p ;; ret tt) (Some st)
    = (Return tt, Some st') /\
    docs_of name st' = (docs_of name st ++ with_ids (next_oid st) docs)%list /\
    (forall name', name <> name' -> docs_of name' st' = docs_of name' st).
Proof.
  revert st. induction docs as [|d docs IH]; intros st; simpl.
  - exists st. rewrite app_nil_r. auto.
  - destruct (IH (snd (insert_one name d st))) as (st' & Hrun & Hdocs & Hother).
    exists st'. split; [|split].
    + unfold bind at 1 2, create_document, ret at 1.
      destruct (insert_one name d st) as [oid st1] eqn:E. exact Hrun.
    + rewrite Hdocs, docs_of_insert_one, <- app_assoc. reflexivity.
    + intros name' Hne. rewrite (Hother name' Hne).
      now apply docs_of_insert_one_ne.
Qed.

End StoreFacts.

(** ** Properties of the handlers *)

Section HandlerFacts.
Import Store.

Variable str_value : value -> string.
Variable str_exc : exn -> string.

(** What the serialising loop leaves: every item with its [_id] replaced
    by the string of it, and the database as it was. *)
Lemma stringify_ids_inv (its its' : list dict) (db db' : database) :
  stringify_ids str_value its db = (Return its', db') ->
  db' = db /\
  forall doc, In doc its' ->
    exists it idv,
      In it its /\ dict_get "_id" it = Some idv /\
      doc = dict_set "_id" (VStr (str_value idv)) it.
Proof.
  revert its'. induction its as [|it its IH]; intros its'; simpl.
  - unfold ret. intros [= <- <-]. split; [reflexivity | intros ? []].
  - unfold bind at 1, stringify_id.
    destruct (dict_get "_id" it) as [idv|] eqn:Eid; [|discriminate].
    unfold ret at 1. unfold bind at 1.
    destruct (stringify_ids str_value its db) as [[rest|e] db1] eqn:Erest;
      [|discriminate].
    unfold ret. intros [= <- <-].
    destruct (IH rest eq_refl) as [-> Hrest].
    split; [reflexivity|]. intros doc [<- | Hin].
    + exists it, idv. auto.
    + destruct (Hrest doc Hin) as (it0 & idv0 & H1 & H2 & H3).
      exists it0, idv0. auto.
Qed.

Lemma stringify_ids_total (its : list dict) (db : database) :
  Forall (fun it => dict_get "_id" it <> None) its ->
  exists its', stringify_ids str_value its db = (Return its', db).
Proof.
  induction 1 as [|it its Hit _ [rest IH]]; simpl.
  - eexists. reflexivity.
  - unfold bind at 1, stringify_id.
    destruct (dict_get "_id" it) as [idv|]; [|congruence].
    unfold ret at 1. unfold bind at 1. rewrite IH.
    eexists. reflexivity.
Qed.

Lemma list_products_connected (g a : option string) (m : option Z) (st : store) :
  list_products str_value str_exc g a m (Some st)
  = match stringify_ids str_value
            (find (products_query g a m) (docs_of "product" st)) (Some st) with
    | (Return its, db') => (Return its, db')
    | (Raise e, db') => (Raise (HTTPException 500 (str_exc e)), db')
    end.
Proof.
  unfold list_products, try_except, bind, collection.
  destruct (stringify_ids _ _ _) as [[its|e] db']; reflexivity.
Qed.

Lemma get_product_connected (slug : string) (st : store) :
  get_product str_value str_exc slug (Some st)
  = match find_one [("slug", VStr slug)] (docs_of "product" st) with
    | Some (kv :: doc) =>
        match dict_get "_id" (kv :: doc) with
        | Some idv =>
            (Return (dict_set "_id" (VStr (str_value idv)) (kv :: doc)), Some st)
        | None => (Raise (HTTPException 500 (str_exc (KeyError "_id"))), Some st)
        end
    | _ => (Raise (HTTPException 404 "Product not found"), Some st)
    end.
Proof.
  unfold get_product, try_except, bind, collection.
  destruct (find_one _ _) as [[|kv doc]|]; try reflexivity.
  unfold truthy_list, negb, stringify_id.
  destruct (dict_get "_id" (kv :: doc)); reflexivity.
Qed.

(** [seed] never gets past the test of the handle: a handle that is
    present raises there, and without one the first insert fails. *)
Lemma seed_connected (st : store) :
  seed str_exc (Some st)
  = (Raise (HTTPException 500 (str_exc NotImplementedError)), Some st).
Proof. reflexivity. Qed.


End HandlerFacts.

(** C3, on the code as written.  [seed] tests the handle with [if db];
    a present handle raises there, the handler turns that into a 500,
    and nothing is read or written: on every connected store, with
    products or without, [seed] answers 500 and leaves the store as it
    was.  It reports neither [seeded: true] nor [seeded: false], and the
    three samples are never inserted. *)
Theorem seed_fails_on_connected_store
    (str_exc : exn -> string) (st : store) :
  seed str_exc (Some st)
  = (Raise (HTTPException 500 (str_exc NotImplementedError)), Some st) /\
  respond (fst (seed str_exc (Some st)))
  = ErrorResponse 500 (str_exc NotImplementedError) /\
  (forall d, fst (seed str_exc (Some st)) <> Return d) /\
  Store.docs_of "product" (default st (snd (seed str_exc (Some st))))
  = Store.docs_of "product" st.
Proof.
  rewrite seed_connected. simpl.
  split; [reflexivity|]. split; [reflexivity|]. split; [discriminate|reflexivity].
Qed.

Example seed_on_empty_connected_store :
  seed Sample.str_exc (Some Sample.empty_store)
  = (Raise (HTTPException 500
              "Database objects do not implement truth value testing or bool(). Please compare with None instead: database is not None"),
     Some Sample.empty_store) /\
  fst (seed Sample.str_exc None)
  = Raise (HTTPException 500 "storage error").
Proof. split; vm_compute; reflexivity. Qed.

(** C4. Every document that [list_products] returns for a [min_temp] is
    a stored product, with its identifier turned into a string, whose
    [temperature_min_c] is a number less than or equal to [min_temp]; and
    on a connected store whose products all carry an identifier the
    handler does return. *)
Theorem list_products_min_temp
    (str_value : value -> string) (str_exc : exn -> string)
    (gender activity : option string) (min_temp : Z) (db : database) :
  (forall items db' doc,
     list_products str_value str_exc gender activity (Some min_temp) db
     = (Return items, db') ->
     In doc items ->
     (exists st stored idv,
        db = Some st /\ In stored (Store.docs_of "product" st) /\
        dict_get "_id" stored = Some idv /\
        doc = dict_set "_id" (VStr (str_value idv)) stored) /\
     (exists v q,
        dict_get "temperature_min_c" doc = Some v /\
        Store.number v = Some q /\ (q <= inject_Z min_temp)%Q) /\
     (forall t, dict_get "temperature_min_c" doc = Some (VInt t) ->
        t <= min_temp)) /\
  (forall st,
     db = Some st ->
     Forall (fun d => dict_get "_id" d <> None) (Store.docs_of "product" st) ->
     exists items,
       list_products str_value str_exc gender activity (Some min_temp) db
       = (Return items, db)).
Proof.
  split.
  - intros items db' doc Hrun Hin.
    destruct db as [st|]; [|discriminate].
    rewrite list_products_connected in Hrun.
    destruct (stringify_ids _ _ _) as [[its|e] db1] eqn:Es; [|discriminate].
    injection Hrun as -> ->.
    destruct (stringify_ids_inv _ _ _ _ _ Es) as [_ Hits].
    destruct (Hits doc Hin) as (stored & idv & Hfound & Hid & ->).
    apply filter_In in Hfound. destruct Hfound as [Hstored Hmatch].
    apply matches_dict_set, matches_cond_lte in Hmatch.
    destruct Hmatch as (v & q & Hv & Hq & Hle).
    assert (Hget : dict_get "temperature_min_c"
                     (dict_set "_id" (VStr (str_value idv)) stored) = Some v)
      by (rewrite dict_get_set_ne by discriminate; exact Hv).
    split; [|split].
    + exists st, stored, idv. auto.
    + exists v, q. auto.
    + intros t Ht. rewrite Hget in Ht. injection Ht as ->.
      simpl in Hq. injection Hq as <-. rewrite Zle_Qle. exact Hle.
  - intros st -> Hids.
    rewrite list_products_connected.
    destruct (stringify_ids_total str_value
                (Store.find (products_query gender activity (Some min_temp))
                   (Store.docs_of "product" st)) (Some st)) as [its' Hits'].
    + unfold Store.find. rewrite List.Forall_forall in *.
      intros d Hd. apply filter_In in Hd. now apply Hids.
    + rewrite Hits'. eauto.
Qed.

Example list_products_below_minus_20 :
  option_map (map (dict_get "slug"))
    (match fst (list_products Sample.str_value Sample.str_exc None None
                  (Some (-20)) Sample.seeded_db) with
     | Return items => Some items
     | Raise _ => None
     end)
  = Some [Some (VStr "arctic-edge-pro"); Some (VStr "polar-stealth-lite")].
Proof. vm_compute. reflexivity. Qed.

(** C5. On a connected store in which no product carries the slug,
    [get_product] raises the 404 [HTTPException] and leaves the store as
    it was; when a product carries it, the first such product is returned
    with its identifier turned into a string.  Whatever the handle and
    the slug, the handler returns a document or raises an [HTTPException]
    with status 404 or 500, so nothing else escapes it. *)
Theorem get_product_not_found
    (str_value : value -> string) (str_exc : exn -> string)
    (slug : string) (db : database) :
  (forall st,
     db = Some st ->
     (forall d, In d (Store.docs_of "product" st) ->
        dict_get "slug" d <> Some (VStr slug)) ->
     get_product str_value str_exc slug db
     = (Raise (HTTPException 404 "Product not found"), db) /\
     respond (fst (get_product str_value str_exc slug db))
     = ErrorResponse 404 "Product not found") /\
  (forall st pre d post idv,
     db = Some st ->
     Store.docs_of "product" st = (pre ++ d :: post)%list ->
     (forall d', In d' pre -> dict_get "slug" d' <> Some (VStr slug)) ->
     dict_get "slug" d = Some (VStr slug) ->
     dict_get "_id" d = Some idv ->
     get_product str_value str_exc slug db
     = (Return (dict_set "_id" (VStr (str_value idv)) d), db)) /\
  ((exists d, get_product str_value str_exc slug db = (Return d, db)) \/
   (exists code detail,
      get_product str_value str_exc slug db
      = (Raise (HTTPException code detail), db) /\
      (code = 404 \/ code = 500))).
Proof.
  assert (Hmiss : forall d, dict_get "slug" d <> Some (VStr slug) ->
            Store.matches [("slug", VStr slug)] d = false).
  { intros d Hd. destruct (Store.matches _ d) eqn:E; [|reflexivity].
    apply matches_slug in E. contradiction. }
  split; [|split].
  - intros st -> Hnone. rewrite get_product_connected.
    rewrite find_one_none by (intros d Hd; apply Hmiss; now apply Hnone).
    split; reflexivity.
  - intros st pre d post idv -> Hdocs Hpre Hd Hid.
    rewrite get_product_connected, Hdocs.
    rewrite find_one_first;
      [| intros d' Hd'; apply Hmiss; now apply Hpre | now apply matches_slug].
    destruct d as [|kv d]; [discriminate|].
    now rewrite Hid.
  - destruct db as [st|].
    + rewrite get_product_connected.
      destruct (Store.find_one _ _) as [[|kv doc]|].
      * right. exists 404, "Product not found". auto.
      * destruct (dict_get "_id" (kv :: doc)).
        -- left. eauto.
        -- right. eexists 500, _. auto.
      * right. exists 404, "Product not found". auto.
    + right. eexists 500, _. split; [reflexivity | auto].
Qed.

Example get_product_on_seeded_store :
  fst (get_product Sample.str_value Sample.str_exc "unknown-slug" Sample.seeded_db)
  = Raise (HTTPException 404 "Product not found") /\
  option_map (fun d => (dict_get "_id" d, dict_get "title" d))
    (match fst (get_product Sample.str_value Sample.str_exc "polar-stealth-lite"
                  Sample.seeded_db) with
     | Return d => Some d
     | Raise _ => None
     end)
  = Some (Some (VStr "000000000000000000000001"),
          Some (VStr "Polar Stealth Lite")).
Proof. split; vm_compute; reflexivity. Qed.

(** C9. In [list_products] an empty [gender] or [activity] string is not
    truthy, so it adds no condition to the filter and the handler behaves
    as if the parameter were absent; with both empty and no [min_temp]
    the filter is empty and selects every product.  [min_temp] is tested
    against [None], so the value 0 does add a condition, and there is a
    store on which the answers with [min_temp=0] and without it differ. *)
Theorem empty_filter_is_absent
    (str_value : value -> string) (str_exc : exn -> string)
    (gender activity : option string) (min_temp : option Z) (db : database) :
  list_products str_value str_exc (Some "") activity min_temp db
  = list_products str_value str_exc None activity min_temp db /\
  list_products str_value str_exc gender (Some "") min_temp db
  = list_products str_value str_exc gender None min_temp db /\
  (forall docs,
     Store.find (products_query (Some "") (Some "") None) docs = docs) /\
  products_query gender activity (Some 0)
  <> products_query gender activity None /\
  (exists db0,
     list_products str_value str_exc None None (Some 0) db0
     <> list_products str_value str_exc None None None db0).
Proof.
  split; [reflexivity|]. split; [reflexivity|]. split; [apply find_all|].
  split.
  - unfold products_query.
    destruct gender as [g|]; destruct activity as [a|];
      try destruct (truthy_str g); try destruct (truthy_str a);
      cbn; intros H; apply (f_equal (@length _)) in H; discriminate.
  - exists (Some Sample.mild_store).
    rewrite !list_products_connected. cbn. discriminate.
Qed.

Example list_products_empty_gender :
  list_products Sample.str_value Sample.str_exc (Some "") (Some "") None
    Sample.seeded_db
  = list_products Sample.str_value Sample.str_exc None None None
      Sample.seeded_db /\
  option_map (@length dict)
    (match fst (list_products Sample.str_value Sample.str_exc (Some "")
                  (Some "") None Sample.seeded_db) with
     | Return items => Some items
     | Raise _ => None
     end) = Some 3%nat.
Proof. split; vm_compute; reflexivity. Qed.

(** ** Further properties: filters, serialisation and read-only routes *)

Section ListingFacts.
Import Store.

Variable str_value : value -> string.
Variable str_exc : exn -> string.

Lemma truthy_str_true (s : string) : truthy_str s = true <-> s <> "".
Proof.
  unfold truthy_str. rewrite negb_true_iff. apply String.eqb_neq.
Qed.

(** A document that passes a filter passes each of its conditions. *)
Lemma matches_get (k : string) (c : value) (q doc : dict) :
  matches q doc = true ->
  dict_get k q = Some c ->
  matches_cond (dict_get k doc) c = true.
Proof.
  unfold matches. induction q as [|[k' c'] q IH]; simpl; [discriminate|].
  rewrite andb_true_iff. intros [H1 H2].
  destruct (String.eqb k' k) eqn:E.
  - apply String.eqb_eq in E. subst k'. intros [= <-]. exact H1.
  - now apply IH.
Qed.

Lemma dict_set_fresh (k : string) (c : value) (q : dict) :
  dict_get k q = None -> dict_set k c q = (q ++ [(k, c)])%list.
Proof.
  induction q as [|[k' c'] q IH]; simpl; [reflexivity|].
  destruct (String.eqb k' k); [discriminate|].
  intros H. now rewrite IH.
Qed.

Lemma matches_app (q1 q2 doc : dict) :
  matches (q1 ++ q2)%list doc = matches q1 doc && matches q2 doc.
Proof. unfold matches. apply forallb_app. Qed.

Lemma matches_cond_in (field : option value) (a : string) :
  matches_cond field (VDict [("$in", VList [VStr a])]) = true ->
  exists xs, field = Some (VList xs) /\ In (VStr a) xs.
Proof.
  unfold matches_cond.
  change (String.eqb "$in" "$in") with true. cbv iota.
  destruct field as [[| | | | |xs| |]|]; try discriminate.
  intros H. apply existsb_exists in H. destruct H as (x & Hx & Hm).
  simpl in Hm. rewrite orb_false_r in Hm. apply value_eqb_str in Hm.
  subst x. eauto.
Qed.

Lemma matches_cond_exact_str (field : option value) (s : string) :
  matches_cond field (VStr s) = true <-> field = Some (VStr s).
Proof.
  unfold matches_cond. destruct field as [v|].
  - rewrite value_eqb_str. split; congruence.
  - split; discriminate.
Qed.

Lemma query_gender (g : string) (a : option string) (m : option Z) :
  g <> "" -> dict_get "gender" (products_query (Some g) a m) = Some (VStr g).
Proof.
  intros Hg. apply truthy_str_true in Hg. unfold products_query. rewrite Hg.
  destruct a as [a|]; [destruct (truthy_str a)|]; destruct m; reflexivity.
Qed.

Lemma query_activity (g : option string) (a : string) (m : option Z) :
  a <> "" ->
  dict_get "activity" (products_query g (Some a) m)
  = Some (VDict [("$in", VList [VStr a])]).
Proof.
  intros Ha. apply truthy_str_true in Ha. unfold products_query. rewrite Ha.
  destruct g as [g|]; [destruct (truthy_str g)|]; destruct m; reflexivity.
Qed.

Lemma query_min_temp (g a : option string) (t : Z) :
  products_query g a (Some t)
  = (products_query g a None
     ++ [("temperature_min_c", VDict [("$lte", VInt t)])])%list.
Proof.
  unfold products_query.
  destruct g as [g|]; [destruct (truthy_str g)|];
    (destruct a as [a|]; [destruct (truthy_str a)|]); reflexivity.
Qed.

(** The serialising loop never touches the database. *)
Lemma stringify_ids_db (its : list dict) (db : database) :
  snd (stringify_ids str_value its db) = db.
Proof.
  induction its as [|it its IH]; simpl; [reflexivity|].
  unfold bind at 1, stringify_id.
  destruct (dict_get "_id" it); [|reflexivity].
  unfold ret at 1. unfold bind at 1.
  destruct (stringify_ids str_value its db) as [[rest|e] db1]; simpl in *;
    now subst.
Qed.

(** When the loop returns, it returns each item serialised, in order. *)
Lemma stringify_ids_map (its its' : list dict) (db db' : database) :
  stringify_ids str_value its db = (Return its', db') ->
  its' = map (with_str_id str_value) its /\
  Forall (fun it => dict_get "_id" it <> None) its.
Proof.
  revert its'. induction its as [|it its IH]; intros its'; simpl.
  - unfold ret. intros [= <- _]. auto.
  - unfold bind at 1, stringify_id, with_str_id.
    destruct (dict_get "_id" it) as [idv|] eqn:Eid; [|discriminate].
    unfold ret at 1. unfold bind at 1.
    destruct (stringify_ids str_value its db) as [[rest|e] db1]; [|discriminate].
    unfold ret. intros [= <- <-].
    destruct (IH rest eq_refl) as [-> Hall].
    split; [reflexivity|]. constructor; [congruence | exact Hall].
Qed.

Lemma stringify_ids_ok (its : list dict) (db : database) :
  Forall (fun it => dict_get "_id" it <> None) its ->
  stringify_ids str_value its db
  = (Return (map (with_str_id str_value) its), db).
Proof.
  intros H. destruct (stringify_ids_total str_value its db H) as [its' E].
  rewrite E. now destruct (stringify_ids_map _ _ _ _ E) as [-> _].
Qed.

Lemma with_str_id_get (k : string) (it : dict) :
  k <> "_id" -> dict_get k (with_str_id str_value it) = dict_get k it.
Proof.
  intros Hk. unfold with_str_id.
  destruct (dict_get "_id" it); [|reflexivity].
  apply dict_get_set_ne. congruence.
Qed.

(** Filtering by a stronger test and serialising gives a sublist. *)
Lemma filter_map_sublist {A B} (f : A -> B) (P Q : A -> bool) (l : list A) :
  (forall x, P x = true -> Q x = true) ->
  sublist (map f (List.filter P l)) (map f (List.filter Q l)).
Proof.
  intros HPQ. induction l as [|x l IH]; simpl; [constructor|].
  destruct (P x) eqn:EP.
  - rewrite (HPQ x EP). simpl. now constructor.
  - destruct (Q x); simpl; [now constructor | exact IH].
Qed.

Lemma get_reviews_connected (slug : string) (st : store) :
  get_reviews str_value str_exc slug (Some st)
  = match stringify_ids str_value
            (find [("product_slug", VStr slug)] (docs_of "review" st))
            (Some st) with
    | (Return its, db') => (Return its, db')
    | (Raise e, db') => (Raise (HTTPException 500 (str_exc e)), db')
    end.
Proof.
  unfold get_reviews, try_except, bind, collection.
  destruct (stringify_ids _ _ _) as [[its|e] db']; reflexivity.
Qed.

(** What a connected listing returns, when it returns. *)
Lemma list_products_items (g a : option string) (m : option Z) (st : store)
    (items : list dict) (db' : database) :
  list_products str_value str_exc g a m (Some st) = (Return items, db') ->
  items = map (with_str_id str_value)
            (find (products_query g a m) (docs_of "product" st)).
Proof.
  rewrite list_products_connected.
  destruct (stringify_ids _ _ _) as [[its|e] db1] eqn:E; [|discriminate].
  intros [= <- _]. now destruct (stringify_ids_map _ _ _ _ E).
Qed.

Lemma get_reviews_items (slug : string) (st : store)
    (items : list dict) (db' : database) :
  get_reviews str_value str_exc slug (Some st) = (Return items, db') ->
  items = map (with_str_id str_value)
            (find [("product_slug", VStr slug)] (docs_of "review" st)) /\
  Forall (fun it => dict_get "_id" it <> None)
    (find [("product_slug", VStr slug)] (docs_of "review" st)).
Proof.
  rewrite get_reviews_connected.
  destruct (stringify_ids _ _ _) as [[its|e] db1] eqn:E; [|discriminate].
  intros [= <- _]. exact (stringify_ids_map _ _ _ _ E).
Qed.

End ListingFacts.

(** X1. With a non-empty [gender] parameter, every document that
    [list_products] returns has exactly that string in its [gender]
    field, whatever the other two parameters are. *)
Theorem list_products_gender
    (str_value : value -> string) (str_exc : exn -> string)
    (g : string) (a : option string) (m : option Z)
    (db db' : database) (items : list dict) (doc : dict) :
  g <> "" ->
  list_products str_value str_exc (Some g) a m db = (Return items, db') ->
  In doc items ->
  dict_get "gender" doc = Some (VStr g).
Proof.
  intros Hg Hrun Hin. destruct db as [st|]; [|discriminate].
  apply list_products_items in Hrun. subst items.
  apply in_map_iff in Hin. destruct Hin as (stored & <- & Hstored).
  apply filter_In in Hstored. destruct Hstored as [_ Hm].
  rewrite with_str_id_get by discriminate.
  apply matches_cond_exact_str.
  exact (matches_get _ _ _ _ Hm (query_gender g a m Hg)).
Qed.

Lemma list_products_gender_witness :
  dict_get "gender" Fixtures.polar_listed = Some (VStr "Men").
Proof.
  apply (list_products_gender Sample.str_value Sample.str_exc "Men" None None
           Sample.seeded_db Sample.seeded_db [Fixtures.polar_listed]
           Fixtures.polar_listed).
  - discriminate.
  - vm_compute. reflexivity.
  - left. reflexivity.
Defined.

(** X2. With a non-empty [activity] parameter, every document that
    [list_products] returns holds a list in its [activity] field and the
    requested activity is one of its elements. *)
Theorem list_products_activity
    (str_value : value -> string) (str_exc : exn -> string)
    (g : option string) (a : string) (m : option Z)
    (db db' : database) (items : list dict) (doc : dict) :
  a <> "" ->
  list_products str_value str_exc g (Some a) m db = (Return items, db') ->
  In doc items ->
  exists xs, dict_get "activity" doc = Some (VList xs) /\ In (VStr a) xs.
Proof.
  intros Ha Hrun Hin. destruct db as [st|]; [|discriminate].
  apply list_products_items in Hrun. subst items.
  apply in_map_iff in Hin. destruct Hin as (stored & <- & Hstored).
  apply filter_In in Hstored. destruct Hstored as [_ Hm].
  rewrite with_str_id_get by discriminate.
  apply matches_cond_in.
  exact (matches_get _ _ _ _ Hm (query_activity g a m Ha)).
Qed.

Lemma list_products_activity_witness :
  exists xs,
    dict_get "activity" Fixtures.polar_listed = Some (VList xs) /\
    In (VStr "biking") xs.
Proof.
  apply (list_products_activity Sample.str_value Sample.str_exc None "biking"
           None Sample.seeded_db Sample.seeded_db [Fixtures.polar_listed]
           Fixtures.polar_listed).
  - discriminate.
  - vm_compute. reflexivity.
  - left. reflexivity.
Defined.

(** X3. Filters only narrow the listing: whatever [list_products]
    returns for some parameters is a sublist, in the same order, of what
    it returns on the same store with no parameter at all. *)
Theorem list_products_narrows
    (str_value : value -> string) (str_exc : exn -> string)
    (g a : option string) (m : option Z)
    (db db1 db2 : database) (items every : list dict) :
  list_products str_value str_exc g a m db = (Return items, db1) ->
  list_products str_value str_exc None None None db = (Return every, db2) ->
  sublist items every.
Proof.
  intros H1 H2. destruct db as [st|]; [|discriminate].
  apply list_products_items in H1. apply list_products_items in H2.
  subst items every. unfold Store.find.
  apply filter_map_sublist. reflexivity.
Qed.

Lemma list_products_narrows_witness :
  sublist [Fixtures.polar_listed] Fixtures.all_listed.
Proof.
  apply (list_products_narrows Sample.str_value Sample.str_exc (Some "Men")
           None None Sample.seeded_db Sample.seeded_db Sample.seeded_db
           [Fixtures.polar_listed] Fixtures.all_listed);
    vm_compute; reflexivity.
Defined.

(** X4. The listing grows with [min_temp]: for the same gender and
    activity, what is returned for a lower bound is a sublist of what is
    returned for a higher one. *)
Theorem list_products_min_temp_monotone
    (str_value : value -> string) (str_exc : exn -> string)
    (g a : option string) (t1 t2 : Z)
    (db db1 db2 : database) (items1 items2 : list dict) :
  t1 <= t2 ->
  list_products str_value str_exc g a (Some t1) db = (Return items1, db1) ->
  list_products str_value str_exc g a (Some t2) db = (Return items2, db2) ->
  sublist items1 items2.
Proof.
  intros Hle H1 H2. destruct db as [st|]; [|discriminate].
  apply list_products_items in H1. apply list_products_items in H2.
  subst items1 items2. unfold Store.find.
  apply filter_map_sublist. intros doc.
  rewrite !query_min_temp, !matches_app, !andb_true_iff.
  intros [Hq Ht]. split; [exact Hq|].
  unfold Store.matches in *. simpl in *. rewrite andb_true_r in *.
  apply matches_cond_lte in Ht. destruct Ht as (v & q & Hv & Hnum & Hq1).
  rewrite Hv. unfold Store.matches_cond.
  change (String.eqb "$lte" "$in") with false.
  change (String.eqb "$lte" "$lte") with true.
  cbv iota. simpl Store.number at 1. rewrite Hnum.
  apply Qle_bool_iff. eapply Qle_trans; [exact Hq1|].
  rewrite <- Zle_Qle. exact Hle.
Qed.

Lemma list_products_min_temp_monotone_witness :
  sublist [Fixtures.arctic_listed]
    [Fixtures.arctic_listed; Fixtures.polar_listed].
Proof.
  assert (Hle : -30 <= -20) by lia.
  apply (list_products_min_temp_monotone Sample.str_value Sample.str_exc
           None None (-30) (-20) Sample.seeded_db Sample.seeded_db
           Sample.seeded_db [Fixtures.arctic_listed]
           [Fixtures.arctic_listed; Fixtures.polar_listed] Hle);
    vm_compute; reflexivity.
Defined.

(** X5. The three reading handlers never write: whatever the handle,
    the parameters and the outcome, [list_products], [get_product] and
    [get_reviews] give the database back as it was. *)
Theorem reading_handlers_leave_store
    (str_value : value -> string) (str_exc : exn -> string)
    (g a : option string) (m : option Z) (slug : string) (db : database) :
  snd (list_products str_value str_exc g a m db) = db /\
  snd (get_product str_value str_exc slug db) = db /\
  snd (get_reviews str_value str_exc slug db) = db.
Proof.
  destruct db as [st|]; [|repeat split; reflexivity].
  split; [|split].
  - rewrite list_products_connected.
    pose proof (stringify_ids_db str_value
                  (Store.find (products_query g a m)
                     (Store.docs_of "product" st)) (Some st)) as H.
    destruct (stringify_ids _ _ _) as [[its|e] db']; exact H.
  - rewrite get_product_connected.
    destruct (Store.find_one _ _) as [[|kv doc]|]; try reflexivity.
    destruct (dict_get "_id" (kv :: doc)); reflexivity.
  - rewrite get_reviews_connected.
    pose proof (stringify_ids_db str_value
                  (Store.find [("product_slug", VStr slug)]
                     (Store.docs_of "review" st)) (Some st)) as H.
    destruct (stringify_ids _ _ _) as [[its|e] db']; exact H.
Qed.

(** X6. Every document that [get_reviews] returns is a stored review,
    serialised, whose [product_slug] field is exactly the requested
    slug. *)
Theorem get_reviews_only_slug
    (str_value : value -> string) (str_exc : exn -> string)
    (slug : string) (db db' : database) (items : list dict) (doc : dict) :
  get_reviews str_value str_exc slug db = (Return items, db') ->
  In doc items ->
  dict_get "product_slug" doc = Some (VStr slug) /\
  exists st stored,
    db = Some st /\ In stored (Store.docs_of "review" st) /\
    doc = with_str_id str_value stored.
Proof.
  intros Hrun Hin. destruct db as [st|]; [|discriminate].
  apply get_reviews_items in Hrun. destruct Hrun as [-> _].
  apply in_map_iff in Hin. destruct Hin as (stored & <- & Hstored).
  apply filter_In in Hstored. destruct Hstored as [Hst Hm].
  split.
  - rewrite with_str_id_get by discriminate.
    apply matches_cond_exact_str.
    apply (matches_get "product_slug" _ _ _ Hm). reflexivity.
  - exists st, stored. auto.
Qed.

Lemma get_reviews_only_slug_witness :
  dict_get "product_slug" Fixtures.review_listed
  = Some (VStr "arctic-edge-pro") /\
  exists st stored,
    Fixtures.reviewed_db = Some st /\
    In stored (Store.docs_of "review" st) /\
    Fixtures.review_listed = with_str_id Sample.str_value stored.
Proof.
  apply (get_reviews_only_slug Sample.str_value Sample.str_exc
           "arctic-edge-pro" Fixtures.reviewed_db Fixtures.reviewed_db
           [Fixtures.review_listed] Fixtures.review_listed).
  - vm_compute. reflexivity.
  - left. reflexivity.
Defined.

(** X7. On a connected store with no review for a slug, [get_reviews]
    returns the empty list: an unknown slug is not an error there, unlike
    in [get_product]. *)
Theorem get_reviews_unknown_slug
    (str_value : value -> string) (str_exc : exn -> string)
    (slug : string) (st : store) :
  (forall d, In d (Store.docs_of "review" st) ->
     dict_get "product_slug" d <> Some (VStr slug)) ->
  get_reviews str_value str_exc slug (Some st) = (Return [], Some st) /\
  respond_list (fst (get_reviews str_value str_exc slug (Some st)))
  = Success (VList []).
Proof.
  intros Hnone.
  assert (E : Store.find [("product_slug", VStr slug)]
                (Store.docs_of "review" st) = []).
  { unfold Store.find.
    induction (Store.docs_of "review" st) as [|d ds IH];
      cbn [List.filter]; [reflexivity|].
    destruct (Store.matches [("product_slug", VStr slug)] d) eqn:Em.
    - exfalso. apply (Hnone d); [now left|].
      apply matches_cond_exact_str.
      apply (matches_get "product_slug" _ _ _ Em). reflexivity.
    - apply IH. intros d' Hd'. apply Hnone. now right. }
  rewrite get_reviews_connected, E. split; reflexivity.
Qed.

Lemma get_reviews_unknown_slug_witness :
  get_reviews Sample.str_value Sample.str_exc "no-such-jacket"
    (Some Sample.empty_store)
  = (Return [], Some Sample.empty_store) /\
  respond_list (fst (get_reviews Sample.str_value Sample.str_exc
                       "no-such-jacket" (Some Sample.empty_store)))
  = Success (VList []).
Proof.
  apply (get_reviews_unknown_slug Sample.str_value Sample.str_exc
           "no-such-jacket" Sample.empty_store).
  intros d Hd. vm_compute in Hd. destruct Hd.
Defined.

(** ** Further properties: the writing handlers *)

Section WritingFacts.
Import Store.

Variable str_value : value -> string.
Variable str_exc : exn -> string.

(** The shape shared by [add_review], [send_contact] and [checkout]: on a
    connected store the document is inserted and the handler returns
    [{"ok": True}]; with no connection the storage error becomes a 500. *)
Lemma create_then_ok (name : string) (data : dict) (db : database) :
  try_except
    (_ <~ create_document name data ;; ret [("ok", VBool true)])
    (except_Exception str_exc) db
  = match db with
    | Some st =>
        (Return [("ok", VBool true)], Some (snd (insert_one name data st)))
    | None => (Raise (HTTPException 500 (str_exc StorageError)), None)
    end.
Proof. destruct db; reflexivity. Qed.

Lemma matches_exact (k s : string) (doc : dict) :
  matches [(k, VStr s)] doc = true <-> dict_get k doc = Some (VStr s).
Proof.
  unfold matches; simpl. rewrite andb_true_r. apply matches_cond_exact_str.
Qed.

(** What the serialising loop returns does not depend on the database. *)
Lemma stringify_ids_split (its : list dict) (db : database) :
  stringify_ids str_value its db
  = (fst (stringify_ids str_value its None), db).
Proof.
  induction its as [|it its IH]; simpl; [reflexivity|].
  unfold bind at 1 3, stringify_id.
  destruct (dict_get "_id" it); [|reflexivity].
  unfold ret at 1 3. unfold bind at 1 2. rewrite IH.
  destruct (stringify_ids str_value its None) as [[rest|e] db1]; reflexivity.
Qed.

Lemma Order_errors_nil (o : Schemas.Order) :
  Schemas.Order_errors o = [] <->
  float_ge (Schemas.total o) 0 = true /\
  Forall (fun it => 1 <= Schemas.quantity it) (Schemas.items o).
Proof.
  unfold Schemas.Order_errors.
  rewrite app_nil, check_nil.
  assert (Hitems : flat_map Schemas.OrderItem_errors (Schemas.items o) = [] <->
                   Forall (fun it => 1 <= Schemas.quantity it) (Schemas.items o)).
  { induction (Schemas.items o) as [|it its IH]; simpl.
    - split; [constructor | reflexivity].
    - rewrite app_nil, IH. unfold Schemas.OrderItem_errors.
      rewrite check_nil, Z.leb_le. split.
      + intros [H1 H2]. now constructor.
      + intros H. inversion H; subst. auto. }
  tauto.
Qed.

Lemma some_quantity_below_1 (its : list Schemas.OrderItem) :
  ~ Forall (fun it => 1 <= Schemas.quantity it) its <->
  Exists (fun it => Schemas.quantity it < 1) its.
Proof.
  induction its as [|it its IH].
  - split; [intros H; exfalso; apply H; constructor | intros H; inversion H].
  - split.
    + intros H. destruct (Z_lt_dec (Schemas.quantity it) 1) as [Hl | Hge].
      * now constructor 1.
      * constructor 2. apply IH. intros Hall. apply H. constructor; [lia|exact Hall].
    + intros H Hall. inversion Hall; subst.
      inversion H; subst; [lia|]. now apply IH.
Qed.

Lemma fails_ge_0 (f : pyfloat) :
  float_ge f 0 = false <-> float_negative f \/ f = NaN.
Proof.
  destruct f as [q| | |]; simpl.
  - split.
    + intros E. left. apply Qnot_le_lt. intros H.
      apply Qle_bool_iff in H. congruence.
    + intros [H | H]; [|discriminate].
      destruct (Qle_bool 0 q) eqn:E; [|reflexivity].
      apply Qle_bool_iff in E. exfalso. exact (Qlt_not_le _ _ H E).
  - split; [discriminate | intros [[] | H]; discriminate].
  - split; auto.
  - split; auto.
Qed.

End WritingFacts.

(** X8. A stored review can be read back: if [get_reviews] for the slug
    of a review returns on a connected store, then after [add_review] of
    that review it returns the same list with the new review, under its
    fresh identifier as a string, added at the end; the listing for every
    other slug is what it was. *)
Theorem add_review_then_get_reviews
    (str_value : value -> string) (str_exc : exn -> string)
    (r : Review.t) (st : store) (old : list dict) (db0 : database) :
  get_reviews str_value str_exc (Review.product_slug r) (Some st)
  = (Return old, db0) ->
  exists st',
    add_review str_exc r (Some st) = (Return [("ok", VBool true)], Some st') /\
    get_reviews str_value str_exc (Review.product_slug r) (Some st')
    = (Return
         (old ++ [("_id", VStr (str_value (VObjectId (next_oid st))))
                  :: Review.dump r])%list,
       Some st') /\
    forall slug, slug <> Review.product_slug r ->
      fst (get_reviews str_value str_exc slug (Some st'))
      = fst (get_reviews str_value str_exc slug (Some st)).
Proof.
  intros Hold. apply get_reviews_items in Hold. destruct Hold as [-> Hids].
  exists (snd (Store.insert_one "review" (Review.dump r) st)).
  split; [apply (create_then_ok str_exc "review" (Review.dump r) (Some st))|].
  set (new := ("_id", VObjectId (next_oid st)) :: Review.dump r).
  split.
  - rewrite get_reviews_connected, docs_of_insert_one. fold new.
    unfold Store.find in *. rewrite List.filter_app.
    assert (Hnew : Store.matches
                     [("product_slug", VStr (Review.product_slug r))] new = true)
      by (apply matches_exact; reflexivity).
    cbn [List.filter]. rewrite Hnew.
    rewrite stringify_ids_ok.
    + rewrite List.map_app. reflexivity.
    + apply List.Forall_app. split; [exact Hids|].
      constructor; [discriminate | constructor].
  - intros slug Hne.
    rewrite !get_reviews_connected, docs_of_insert_one. fold new.
    unfold Store.find. rewrite List.filter_app.
    assert (Hnew : Store.matches [("product_slug", VStr slug)] new = false).
    { destruct (Store.matches _ new) eqn:E; [|reflexivity].
      apply matches_exact in E. simpl in E. congruence. }
    cbn [List.filter]. rewrite Hnew, app_nil_r.
    rewrite (stringify_ids_split str_value _ (Some st)).
    rewrite (stringify_ids_split str_value _
               (Some (snd (Store.insert_one "review" (Review.dump r) st)))).
    destruct (fst (stringify_ids str_value _ None)); reflexivity.
Qed.

Lemma add_review_then_get_reviews_witness :
  exists st',
    add_review Sample.str_exc Fixtures.review_5 Sample.seeded_db
    = (Return [("ok", VBool true)], Some st') /\
    get_reviews Sample.str_value Sample.str_exc "arctic-edge-pro" (Some st')
    = (Return [Fixtures.review_listed], Some st').
Proof.
  destruct (add_review_then_get_reviews Sample.str_value Sample.str_exc
              Fixtures.review_5
              {| next_oid := 3;
                 collections :=
                   {[ "product" := Store.with_ids 0 sample_products ]} |}
              [] Sample.seeded_db)
    as (st' & Hadd & Hget & _).
  - vm_compute. reflexivity.
  - exists st'. split.
    + exact Hadd.
    + exact Hget.
Defined.

(** X9. [POST /reviews] answers 422 exactly when the rating is below 1
    or above 5, and then gives the database back as it was; the other
    fields of a review carry no constraint. *)
Theorem post_reviews_rating_bounds
    (str_exc : exn -> string) (body : Review.t) (db : database) :
  (status (fst (post_reviews str_exc body db)) = 422 <->
   (Review.rating body < 1 \/ 5 < Review.rating body)) /\
  (status (fst (post_reviews str_exc body db)) = 422 ->
   snd (post_reviews str_exc body db) = db).
Proof.
  unfold post_reviews, Review.errors.
  destruct ((1 <=? Review.rating body)%Z && (Review.rating body <=? 5)%Z) eqn:E.
  - apply andb_true_iff in E. rewrite !Z.leb_le in E.
    unfold add_review. rewrite create_then_ok.
    destruct db as [st|]; simpl; split;
      solve [split; [discriminate | lia] | discriminate].
  - simpl. split; [|reflexivity]. split; [intros _ | reflexivity].
    apply andb_false_iff in E. rewrite !Z.leb_gt in E. lia.
Qed.

Example post_reviews_rating_0 :
  post_reviews Sample.str_exc Fixtures.review_0 Sample.seeded_db
  = (Unprocessable ["rating"], Sample.seeded_db) /\
  fst (post_reviews Sample.str_exc Fixtures.review_5 Sample.seeded_db)
  = Success (VDict [("ok", VBool true)]).
Proof. split; vm_compute; reflexivity. Qed.

(** X10. [POST /checkout] fails validation, and leaves the database as
    it was, when the total fails [ge=0] (it is negative, [-inf] or
    [nan]) or some item has a quantity below 1; nothing else is checked,
    so an order with no items is accepted.  The answer to an invalid
    order is a 422 unless the total is [-inf] or [nan]: the 422 echoes
    the total, cannot be rendered then, and the answer is a bare 500. *)
Theorem post_checkout_validation
    (str_exc : exn -> string) (body : Schemas.Order) (db : database) :
  let r := post_checkout str_exc body db in
  let invalid :=
    float_ge (Schemas.total body) 0 = false \/
    Exists (fun it => Schemas.quantity it < 1) (Schemas.items body) in
  (invalid ->
   snd r = db /\ (status (fst r) = 422 \/ status (fst r) = 500)) /\
  (status (fst r) = 422 <->
   invalid /\ Schemas.total body <> NegInf /\ Schemas.total body <> NaN) /\
  (float_ge (Schemas.total body) 0 = false <->
   float_negative (Schemas.total body) \/ Schemas.total body = NaN).
Proof.
  cbv zeta. split; [|split; [|apply fails_ge_0]].
  - intros Hinv. unfold post_checkout, unprocessable.
    rewrite Order_error_inputs_render.
    destruct (Schemas.Order_errors body) as [|e errs] eqn:E.
    + exfalso. apply Order_errors_nil in E. destruct E as [Ht Hq].
      destruct Hinv as [Hf | Hex]; [congruence|].
      apply some_quantity_below_1 in Hex. exact (Hex Hq).
    + destruct (Schemas.total body); simpl; auto.
  - unfold post_checkout, unprocessable.
    rewrite Order_error_inputs_render.
    destruct (Schemas.Order_errors body) as [|e errs] eqn:E.
    + apply Order_errors_nil in E. destruct E as [Ht Hq].
      unfold checkout. rewrite create_then_ok.
      assert (Hno : ~ (float_ge (Schemas.total body) 0 = false \/
                       Exists (fun it => Schemas.quantity it < 1)
                         (Schemas.items body))).
      { intros [Hf | Hex]; [congruence|].
        apply some_quantity_below_1 in Hex. exact (Hex Hq). }
      destruct db as [st|]; simpl; (split; [discriminate | tauto]).
    + assert (Hinv : float_ge (Schemas.total body) 0 = false \/
                     Exists (fun it => Schemas.quantity it < 1)
                       (Schemas.items body)).
      { destruct (float_ge (Schemas.total body) 0) eqn:Ht; [|now left].
        right. apply some_quantity_below_1. intros Hq.
        assert (Schemas.Order_errors body = []) as E'
            by (apply Order_errors_nil; auto).
        congruence. }
      destruct (Schemas.total body); simpl; split;
        try discriminate; try tauto;
        try (intros _; repeat split; [exact Hinv | discriminate | discriminate]).
Qed.

Example post_checkout_quantity_0 :
  post_checkout Sample.str_exc Fixtures.order_no_quantity
    (Some Sample.empty_store)
  = (Unprocessable ["quantity"], Some Sample.empty_store).
Proof. vm_compute. reflexivity. Qed.

(** X12. [POST /contact] has nothing to reject: on a connected store any
    message is answered with [{"ok": true}] and stored once, at the end
    of the contact collection, with every other collection left as it
    was. *)
Theorem post_contact_stores_message
    (str_exc : exn -> string) (body : ContactMessage.t) (st : store) :
  exists st',
    post_contact str_exc body (Some st)
    = (Success (VDict [("ok", VBool true)]), Some st') /\
    Store.docs_of "contactmessage" st'
    = (Store.docs_of "contactmessage" st
       ++ [[("_id", VObjectId (next_oid st));
            ("name", VStr (ContactMessage.name body));
            ("email", VStr (ContactMessage.email body));
            ("message", VStr (ContactMessage.message body))]])%list /\
    (forall name, name <> "contactmessage" ->
       Store.docs_of name st' = Store.docs_of name st).
Proof.
  exists (snd (Store.insert_one "contactmessage" (ContactMessage.dump body) st)).
  split; [|split].
  - unfold post_contact, send_contact. rewrite create_then_ok. reflexivity.
  - apply docs_of_insert_one.
  - intros name Hne. apply docs_of_insert_one_ne. congruence.
Qed.

(** ** Further properties: the routes as a whole *)

Section RouteFacts.
Import Store.

Variable str_value : value -> string.
Variable str_exc : exn -> string.
Variable getenv : string -> option string.
Variable list_collection_names : store -> outcome (list string).

















End RouteFacts.



Example routes_bare_500 :
  fst (handle Sample.str_value Sample.str_exc Fixtures.getenv
         Fixtures.list_collection_names (POST_checkout Fixtures.order_nan)
         Sample.seeded_db) = Uncaught ValueError /\
  fst (handle Sample.str_value Sample.str_exc Fixtures.getenv
         Fixtures.list_collection_names (GET_product "no-such-jacket")
         Sample.seeded_db) = ErrorResponse 404 "Product not found".
Proof. split; vm_compute; reflexivity. Qed.



(** ** Further properties: sizes, diagnostics and product validation *)

Section MoreSizeFacts.
Import Size.

Lemma label_rank_monotone (s1 s2 : Z) :
  s1 <= s2 -> (size_rank (label s1) <= size_rank (label s2))%nat.
Proof.
  intros H. unfold label.
  repeat match goal with
         | |- context [Z.ltb ?a ?b] => destruct (Z.ltb_spec a b)
         end; try lia; vm_compute; lia.
Qed.

Lemma label_rank_step (s : Z) :
  -10 <= s -> size_rank (label (s + 10)) = Nat.min 5 (size_rank (label s) + 1).
Proof.
  intros H. unfold label.
  repeat match goal with
         | |- context [Z.ltb ?a ?b] => destruct (Z.ltb_spec a b)
         end; try lia; reflexivity.
Qed.

Lemma response_label (p : SizeProfile) (l : string) :
  recommend_size p = size_response l -> l = label (score p).
Proof. unfold recommend_size, size_response. congruence. Qed.

End MoreSizeFacts.

(** X17. The recommendation never shrinks with the measurements: for the
    same build, a profile that is at least as tall and at least as heavy
    gets the same size or a larger one. *)
Theorem recommend_size_monotone (p1 p2 : SizeProfile) (l1 l2 : string) :
  build p1 = build p2 ->
  height_cm p1 <= height_cm p2 ->
  weight_kg p1 <= weight_kg p2 ->
  Size.recommend_size p1 = Size.size_response l1 ->
  Size.recommend_size p2 = Size.size_response l2 ->
  (size_rank l1 <= size_rank l2)%nat.
Proof.
  intros Hb Hh Hw H1 H2.
  apply response_label in H1. apply response_label in H2. subst l1 l2.
  apply label_rank_monotone. unfold Size.score. rewrite Hb.
  destruct (str_in (build p2) ["athletic"; "broad"]); lia.
Qed.

Lemma recommend_size_monotone_witness :
  (size_rank "S" <= size_rank "L")%nat.
Proof.
  assert (Hh : 160 <= 170) by lia.
  assert (Hw : 60 <= 70) by lia.
  apply (recommend_size_monotone
           (mkSizeProfile 160 60 "slim" None)
           (mkSizeProfile 170 70 "slim" None) "S" "L" eq_refl Hh Hw);
    reflexivity.
Defined.

(** X18. An athletic or broad build is recommended exactly one size up
    from what any other build gets for the same height and weight, XXL
    staying XXL, as long as height and weight alone score -10 or more;
    below that both get XS. *)
Theorem adjusted_build_one_size_up (p1 p2 : SizeProfile) (l1 l2 : string) :
  height_cm p1 = height_cm p2 ->
  weight_kg p1 = weight_kg p2 ->
  build p1 <> "athletic" ->
  build p1 <> "broad" ->
  build p2 = "athletic" \/ build p2 = "broad" ->
  Size.recommend_size p1 = Size.size_response l1 ->
  Size.recommend_size p2 = Size.size_response l2 ->
  (-10 <= (height_cm p1 - 160) + (weight_kg p1 - 60) ->
   size_rank l2 = Nat.min 5 (size_rank l1 + 1)) /\
  ((height_cm p1 - 160) + (weight_kg p1 - 60) < -10 ->
   l1 = "XS" /\ l2 = "XS").
Proof.
  intros Hh Hw Ha Hb Hadj H1 H2.
  apply response_label in H1. apply response_label in H2.
  assert (E1 : Size.score p1 = (height_cm p1 - 160) + (weight_kg p1 - 60)).
  { unfold Size.score.
    destruct (str_in (build p1) ["athletic"; "broad"]) eqn:Hin; [|reflexivity].
    apply str_in_build in Hin. tauto. }
  assert (E2 : Size.score p2 = (height_cm p1 - 160) + (weight_kg p1 - 60) + 10).
  { apply str_in_build in Hadj. unfold Size.score. rewrite Hadj, Hh, Hw.
    reflexivity. }
  rewrite E1 in H1. rewrite E2 in H2. subst l1 l2. split.
  - apply label_rank_step.
  - intros Hlow. destruct (label_bands ((height_cm p1 - 160) + (weight_kg p1 - 60)))
      as (Hxs & _).
    destruct (label_bands ((height_cm p1 - 160) + (weight_kg p1 - 60) + 10))
      as (Hxs' & _).
    split; [apply Hxs | apply Hxs']; lia.
Qed.

Lemma adjusted_build_one_size_up_witness :
  size_rank "XL" = Nat.min 5 (size_rank "L" + 1).
Proof.
  assert (Ha : "average" <> "athletic") by discriminate.
  assert (Hb : "average" <> "broad") by discriminate.
  assert (Hlow : -10 <= (170 - 160) + (70 - 60)) by lia.
  apply (adjusted_build_one_size_up
           (mkSizeProfile 170 70 "average" None)
           (mkSizeProfile 170 70 "broad" None) "L" "XL"
           eq_refl eq_refl Ha Hb (or_intror eq_refl) eq_refl eq_refl).
  exact Hlow.
Defined.

(** X19. The fields of the [test_database] report agree with each other:
    [connection_status] is "Connected" exactly when there is a handle,
    even if listing the collections then fails; [database] reads
    "Connected & Working" exactly when there is a handle and the listing
    succeeded, and then [collections] holds the listed names; in every
    other case [collections] is the empty list. *)
Theorem test_database_report
    (str_exc : exn -> string) (getenv : string -> option string)
    (list_collection_names : store -> outcome (list string))
    (db : database) :
  let report := test_database str_exc getenv list_collection_names db in
  let working :=
    exists st names, db = Some st /\ list_collection_names st = Return names in
  (dict_get "connection_status" report = Some (VStr "Connected") <->
   db <> None) /\
  (dict_get "database" report = Some (VStr "✅ Connected & Working") <->
   working) /\
  (forall st names,
     db = Some st -> list_collection_names st = Return names ->
     dict_get "collections" report = Some (str_list names)) /\
  (~ working -> dict_get "collections" report = Some (VList [])) /\
  dict_get "backend" report = Some (VStr "✅ Running").
Proof.
  destruct db as [st|]; cbv zeta.
  - unfold test_database.
    destruct (list_collection_names st) as [names|e] eqn:E.
    + split; [split; [discriminate | reflexivity]|].
      split; [split; [eauto | reflexivity]|].
      split; [intros st0 names0 [= <-] E0; rewrite E in E0;
              injection E0 as <-; reflexivity|].
      split; [intros Hnot; exfalso; apply Hnot; eauto | reflexivity].
    + split; [split; [discriminate | reflexivity]|].
      split; [split|].
      * simpl. intros H. discriminate H.
      * intros (st0 & names & [= <-] & E0). congruence.
      * split; [intros st0 names0 [= <-] E0; congruence|].
        split; reflexivity.
  - unfold test_database.
    split; [split; [discriminate | congruence]|].
    split; [split; [discriminate | intros (st0 & names & H & _); discriminate]|].
    split; [intros st0 names0 H; discriminate|].
    split; reflexivity.
Qed.

Example test_database_listing_fails :
  dict_get "connection_status"
    (test_database Sample.str_exc Fixtures.getenv Fixtures.listing_fails
       (Some Sample.empty_store)) = Some (VStr "Connected") /\
  dict_get "database"
    (test_database Sample.str_exc Fixtures.getenv Fixtures.listing_fails
       (Some Sample.empty_store))
  = Some (VStr "⚠️ Connected but Error: connection refused") /\
  dict_get "collections"
    (test_database Sample.str_exc Fixtures.getenv Fixtures.listing_fails
       (Some Sample.empty_store)) = Some (VList []).
Proof. repeat split; vm_compute; reflexivity. Qed.

(** X20. The report shows an environment variable as set exactly when it
    is set to a non-empty string: a [DATABASE_URL] or [DATABASE_NAME] set
    to the empty string is shown as not set, the same as one that is
    missing, and this does not depend on the state of the database. *)
Theorem test_database_env_flags
    (str_exc : exn -> string) (getenv : string -> option string)
    (list_collection_names : store -> outcome (list string))
    (db : database) :
  let report := test_database str_exc getenv list_collection_names db in
  let is_set name := exists v, getenv name = Some v /\ v <> "" in
  (dict_get "database_url" report = Some (VStr "✅ Set") <->
   is_set "DATABASE_URL") /\
  (dict_get "database_url" report = Some (VStr "❌ Not Set") <->
   ~ is_set "DATABASE_URL") /\
  (dict_get "database_name" report = Some (VStr "✅ Set") <->
   is_set "DATABASE_NAME") /\
  (dict_get "database_name" report = Some (VStr "❌ Not Set") <->
   ~ is_set "DATABASE_NAME").
Proof.
  cbv zeta.
  assert (Hflag : forall name,
            (env_flag getenv name = "✅ Set" <->
             exists v, getenv name = Some v /\ v <> "") /\
            (env_flag getenv name = "❌ Not Set" <->
             ~ exists v, getenv name = Some v /\ v <> "")).
  { intros name. unfold env_flag.
    destruct (getenv name) as [v|].
    - destruct (truthy_str v) eqn:Ev.
      + apply truthy_str_true in Ev. split; split.
        * eauto.
        * reflexivity.
        * discriminate.
        * intros H. exfalso. apply H. eauto.
      + assert (Hv : v = "").
        { unfold truthy_str in Ev. apply negb_false_iff in Ev.
          now apply String.eqb_eq in Ev. }
        split; split.
        * discriminate.
        * intros (v' & [= <-] & Hne). contradiction.
        * intros _ (v' & [= <-] & Hne). contradiction.
        * reflexivity.
    - split; split.
      + discriminate.
      + intros (v' & H & _). discriminate.
      + intros _ (v' & H & _). discriminate.
      + reflexivity. }
  assert (Hurl : dict_get "database_url"
                   (test_database str_exc getenv list_collection_names db)
                 = Some (VStr (env_flag getenv "DATABASE_URL"))).
  { unfold test_database. destruct db as [st|]; [|reflexivity].
    destruct (list_collection_names st); reflexivity. }
  assert (Hname : dict_get "database_name"
                    (test_database str_exc getenv list_collection_names db)
                  = Some (VStr (env_flag getenv "DATABASE_NAME"))).
  { unfold test_database. destruct db as [st|]; [|reflexivity].
    destruct (list_collection_names st); reflexivity. }
  rewrite Hurl, Hname.
  destruct (Hflag "DATABASE_URL") as [U1 U2].
  destruct (Hflag "DATABASE_NAME") as [N1 N2].
  repeat split; intros H;
    first [ injection H as H; first [now apply U1 | now apply U2
                                    | now apply N1 | now apply N2]
          | f_equal; f_equal;
            first [now apply U1 | now apply U2 | now apply N1 | now apply N2] ].
Qed.

Example test_database_empty_name :
  dict_get "database_url"
    (test_database Sample.str_exc Fixtures.getenv
       Fixtures.list_collection_names None) = Some (VStr "✅ Set") /\
  dict_get "database_name"
    (test_database Sample.str_exc Fixtures.getenv
       Fixtures.list_collection_names None) = Some (VStr "❌ Not Set").
Proof. split; vm_compute; reflexivity. Qed.

(** X21. [Product(...)] is rejected exactly when the price fails [ge=0]
    (it is negative, [-inf] or [nan]) or the warmth level is outside
    1..10, and the failure names exactly the fields at fault; the other
    fields, [temperature_min_c] and [battery_life_hours] included, carry
    no bound, and a price of [inf] is accepted. *)
Theorem Product_init_rejects (a : Schemas.ProductArgs) :
  let bad_price :=
    float_negative (Schemas.arg_price a) \/ Schemas.arg_price a = NaN in
  let bad_warmth :=
    Schemas.arg_warmth_level a < 1 \/ 10 < Schemas.arg_warmth_level a in
  ((exists errs, Schemas.Product_init a = inr errs) <->
   (bad_price \/ bad_warmth)) /\
  (forall errs,
     Schemas.Product_init a = inr errs ->
     (In "price" errs <-> bad_price) /\
     (In "warmth_level" errs <-> bad_warmth) /\
     (forall loc, In loc errs -> loc = "price" \/ loc = "warmth_level")).
Proof.
  cbv zeta.
  pose proof (fails_ge_0 (Schemas.arg_price a)) as Hp.
  assert (Hw : (1 <=? Schemas.arg_warmth_level a)%Z
               && (Schemas.arg_warmth_level a <=? 10)%Z = false <->
               (Schemas.arg_warmth_level a < 1 \/ 10 < Schemas.arg_warmth_level a)).
  { rewrite andb_false_iff, !Z.leb_gt. tauto. }
  unfold Schemas.Product_init, Schemas.Product_errors.
  destruct (float_ge (Schemas.arg_price a) 0) eqn:Ep;
    destruct ((1 <=? Schemas.arg_warmth_level a)%Z
              && (Schemas.arg_warmth_level a <=? 10)%Z) eqn:Ew; simpl.
  - split.
    + split; [intros [errs H]; discriminate|].
      intros [H | H]; [apply Hp in H | apply Hw in H]; discriminate.
    + intros errs H. discriminate.
  - split.
    + split; [intros _; right; now apply Hw | eauto].
    + intros errs [= <-]. simpl. repeat split.
      * intros [H | []]. discriminate.
      * intros H. apply Hp in H. discriminate.
      * intros _. now apply Hw.
      * auto.
      * intros loc [<- | []]. auto.
  - split.
    + split; [intros _; left; now apply Hp | eauto].
    + intros errs [= <-]. simpl. repeat split.
      * intros _. now apply Hp.
      * auto.
      * intros [H | []]. discriminate.
      * intros H. apply Hw in H. discriminate.
      * intros loc [<- | []]. auto.
  - split.
    + split; [intros _; left; now apply Hp | eauto].
    + intros errs [= <-]. simpl. repeat split.
      * intros _. now apply Hp.
      * auto.
      * intros _. now apply Hw.
      * auto.
      * intros loc [<- | [<- | []]]; auto.
Qed.

Example Product_not_a_number :
  Schemas.Product_init
    (Schemas.mkProductArgs "Arctic Edge Pro" "arctic-edge-pro" "Unisex"
       None None NaN None None None (-30) 10 9 None)
  = inr ["price"].
Proof. reflexivity. Qed.
